(** * CalDAVTester request engine: a shallow embedding and its properties

    The development follows [src/request.py], [src/testsuite.py] and
    [verifiers/postFreeBusy.py].  [request.py] imports [urllib.parse] and
    calls [base64.encodebytes], which only Python 3 has, so the embedding
    reads the code as Python 3 runs it.  A [str] and a [bytes] are different
    objects: both are kept as a [string] here (one [ascii] per code point
    below 256 of a [str], one per byte of a [bytes]) and told apart by the
    constructors of [text].  [hashlib]'s [update] takes a [bytes] and raises
    [TypeError] on a [str]; a [str] has no [decode] and a [bytes] no
    [encode]; [time.time()] is a binary64 floating-point number.

    Layout: Python run-time helpers ([Py]), the digests of [hashlib]
    ([Hashlib]), [base64], then the classes of [request.py] over an explicit
    world state, and last the theorems. *)

From Stdlib Require Import ZArith Floats Ascii String List Lia.
From stdpp Require Import base option gmap strings list pretty sorting.

#[local] Set Warnings "-inexact-float".

Local Open Scope Z_scope.

(** ** Python run-time helpers *)
Module Py.

(** Exceptions the modelled code can raise. *)
Inductive exn :=
| TypeError | KeyError | ValueError | IndexError | AttributeError | NameError
| IOError | ImportError | TransportError | ExpatError | OtherException.

Inductive result (A : Type) :=
| Ok (a : A)
| Raise (e : exn).
Arguments Ok {A} a.
Arguments Raise {A} e.

Global Instance result_ret : MRet result := λ A a, Ok a.
Global Instance result_bind : MBind result := λ A B k r,
  match r with Ok a => k a | Raise e => Raise e end.

Definition is_ok {A} (r : result A) : bool :=
  match r with Ok _ => true | Raise _ => false end.

(** Truth value of a [str] and of an optional [str] ([None] is false). *)
Definition truthy (s : string) : bool :=
  match s with EmptyString => false | String _ _ => true end.
Definition otruthy (o : option string) : bool :=
  match o with Some s => truthy s | None => false end.

(** [s.startswith(p)] *)
Fixpoint startswith (p s : string) : bool :=
  match p, s with
  | EmptyString, _ => true
  | String a p', String b s' => if decide (a = b) then startswith p' s' else false
  | String _ _, EmptyString => false
  end.

(** [s.find(sub)], counted from [i]: the index of the first occurrence,
    [-1] when there is none. *)
Fixpoint find_from (sub s : string) (i : Z) : Z :=
  if startswith sub s then i
  else match s with
       | EmptyString => -1
       | String _ s' => find_from sub s' (i + 1)
       end.
Definition find (sub s : string) : Z := find_from sub s 0.

(** [sub in s] *)
Fixpoint contains (sub s : string) : bool :=
  startswith sub s ||
  match s with
  | EmptyString => false
  | String _ s' => contains sub s'
  end.

(** [s.replace(old, new)]: the non-overlapping occurrences of [old], found
    left to right, are replaced.  [skip] counts the characters of an
    occurrence still to be dropped. *)
Fixpoint replace_go (old new s : string) (skip : nat) : string :=
  match s with
  | EmptyString => EmptyString
  | String c s' =>
      match skip with
      | S k => replace_go old new s' k
      | O =>
          if startswith old s
          then new +:+ replace_go old new s' (String.length old - 1)%nat
          else String c (replace_go old new s' 0)
      end
  end.

(** With an empty [old] Python puts [new] around every character. *)
Fixpoint interleave (new s : string) : string :=
  match s with
  | EmptyString => new
  | String c s' => new +:+ String c (interleave new s')
  end.

Definition replace (old new s : string) : string :=
  match old with
  | EmptyString => interleave new s
  | String _ _ => replace_go old new s 0
  end.

(** [s.lower()] for code points below 256: [A-Z] and the capital letters
    U+00C0 to U+00DE (but the sign U+00D7) go 32 up. *)
Definition lower_ascii (c : ascii) : ascii :=
  let n := N_of_ascii c in
  if (((65 <=? n) && (n <=? 90)) || ((192 <=? n) && (n <=? 222) && negb (n =? 215)))%N
  then ascii_of_N (n + 32) else c.
Fixpoint lower (s : string) : string :=
  match s with
  | EmptyString => EmptyString
  | String c s' => String (lower_ascii c) (lower s')
  end.

(** [c.isspace()] for a code point below 256: the ASCII blanks, the
    separators U+001C to U+001F, U+0085 and U+00A0. *)
Definition isspace (c : ascii) : bool :=
  let n := N_of_ascii c in
  (((9 <=? n) && (n <=? 13)) || ((28 <=? n) && (n <=? 32)) || (n =? 133) || (n =? 160))%N.

(** [s.strip()] *)
Fixpoint lstrip (s : string) : string :=
  match s with
  | EmptyString => EmptyString
  | String c s' => if isspace c then lstrip s' else s
  end.
Definition rstrip (s : string) : string := String.rev (lstrip (String.rev s)).
Definition strip (s : string) : string := rstrip (lstrip s).

(** [s.split(sep)] for a one-character separator; [cur] is the piece
    being read, reversed. *)
Fixpoint split_go (sep : ascii) (cur s : string) : list string :=
  match s with
  | EmptyString => [String.rev cur]
  | String c s' =>
      if decide (c = sep) then String.rev cur :: split_go sep EmptyString s'
      else split_go sep (String c cur) s'
  end.
Definition split (sep : ascii) (s : string) : list string :=
  split_go sep EmptyString s.

(** [s.split(sep, 1)]: at most one cut, at the first [sep]. *)
Fixpoint split1_go (sep : ascii) (cur s : string) : list string :=
  match s with
  | EmptyString => [String.rev cur]
  | String c s' =>
      if decide (c = sep) then [String.rev cur; s']
      else split1_go sep (String c cur) s'
  end.
Definition split1 (sep : ascii) (s : string) : list string :=
  split1_go sep EmptyString s.

(** [s[n:]] for [n >= 0]. *)
Fixpoint drop_prefix (n : nat) (s : string) : string :=
  match n, s with
  | O, _ => s
  | S n', String _ s' => drop_prefix n' s'
  | S _, EmptyString => EmptyString
  end.

(** [s[-1]] *)
Fixpoint last_char (s : string) : option ascii :=
  match s with
  | EmptyString => None
  | String c EmptyString => Some c
  | String _ s' => last_char s'
  end.

(** [s[:-1]] *)
Fixpoint drop_last (s : string) : string :=
  match s with
  | EmptyString => EmptyString
  | String _ EmptyString => EmptyString
  | String c s' => String c (drop_last s')
  end.

(** [str(n)] for an [int]. *)
Definition str_of_int (n : Z) : string := pretty n.

(** Lowercase hexadecimal digits of a non-negative number, most
    significant first, [width] digits. *)
Definition hex_digit (d : Z) : ascii :=
  if d <? 10 then ascii_of_N (Z.to_N (48 + d)) else ascii_of_N (Z.to_N (87 + d)).
Fixpoint hex_fixed (width : nat) (n : Z) : string :=
  match width with
  | O => EmptyString
  | S w => hex_fixed w (n / 16) +:+ String (hex_digit (n mod 16)) EmptyString
  end.
Definition hex_digits_count (n : Z) : nat := S (Z.to_nat (Z.log2 n / 4)).

(** ["%08x" % n]: at least eight characters, zero padded, the sign
    included in the width. *)
Definition format_08x (n : Z) : string :=
  if n <? 0 then String "-" (hex_fixed (Nat.max 7 (hex_digits_count (- n))) (- n))
  else hex_fixed (Nat.max 8 (hex_digits_count n)) n.

(** ["%0Nd" % n] for [n >= 0]. *)
Definition zfill (width : nat) (s : string) : string :=
  String.string_of_list_ascii (replicate (width - String.length s) "0"%char) +:+ s.
Definition format_0d (width : nat) (n : Z) : string := zfill width (pretty n).

(** ["%s" % x] where [x] may be [None]. *)
Definition fmt (o : option string) : string := default "None" o.

(** The double quote character, as a string. *)
Definition dq : string := String (ascii_of_N 34) EmptyString.

(** [os.path.join(a, b)] of [posixpath]. *)
Definition endswith_slash (s : string) : bool :=
  match last_char s with Some c => bool_decide (c = "/"%char) | None => false end.
Definition path_join (a b : string) : string :=
  if startswith "/" b then b
  else if negb (truthy a) || endswith_slash a then a +:+ b
  else a +:+ "/" +:+ b.

(** The bytes of a [bytes], as numbers, and back. *)
Definition bytes_of_string (s : string) : list Z :=
  (λ c, Z.of_N (N_of_ascii c)) <$> list_ascii_of_string s.
Definition string_of_bytes (l : list Z) : string :=
  string_of_list_ascii ((λ b, ascii_of_N (Z.to_N b)) <$> l).

(** [s.encode('utf-8')] for a [str] of code points below 256: one byte
    below 128, two bytes from there on. *)
Fixpoint encode_utf8 (s : string) : string :=
  match s with
  | EmptyString => EmptyString
  | String c s' =>
      let n := N_of_ascii c in
      if (n <? 128)%N then String c (encode_utf8 s')
      else String (ascii_of_N (192 + n / 64))
             (String (ascii_of_N (128 + n mod 64)) (encode_utf8 s'))
  end.

End Py.

(** ** The digests of [hashlib] used by [request.py]: MD5 (RFC 1321) and
    SHA-1 (RFC 3174) on byte strings. *)
Module Hashlib.
Import Py.

Definition mask32 (x : Z) : Z := Z.land x 0xffffffff.
Definition add32 (x y : Z) : Z := mask32 (x + y).
Definition not32 (x : Z) : Z := Z.lxor x 0xffffffff.
Definition rotl32 (x n : Z) : Z :=
  mask32 (Z.lor (Z.shiftl x n) (Z.shiftr x (32 - n))).

Definition le_bytes (n : nat) (x : Z) : list Z :=
  (λ i, Z.land (Z.shiftr x (8 * Z.of_nat i)) 0xff) <$> seq 0 n.
Definition be_bytes (n : nat) (x : Z) : list Z := rev (le_bytes n x).
Definition le_word (bs : list Z) : Z := foldr (λ b acc, b + 256 * acc) 0 bs.
Definition be_word (bs : list Z) : Z := le_word (rev bs).

(** Message padding: a 1 bit, zeros up to 56 mod 64, the bit length on
    eight bytes. *)
Definition pad (len_bytes : Z → list Z) (msg : list Z) : list Z :=
  let n := Z.of_nat (length msg) in
  msg ++ [0x80] ++ replicate (Z.to_nat ((55 - n) mod 64)) 0 ++ len_bytes (8 * n).

Fixpoint chunks (count size : nat) (l : list Z) : list (list Z) :=
  match count with
  | O => []
  | S c => take size l :: chunks c size (drop size l)
  end.
Definition blocks (l : list Z) : list (list Z) := chunks (length l / 64) 64 l.
Definition words (dec : list Z → Z) (block : list Z) : list Z :=
  dec <$> chunks 16 4 block.

Definition md5_K : list Z :=
  [ 0xd76aa478; 0xe8c7b756; 0x242070db; 0xc1bdceee; 0xf57c0faf; 0x4787c62a;
    0xa8304613; 0xfd469501; 0x698098d8; 0x8b44f7af; 0xffff5bb1; 0x895cd7be;
    0x6b901122; 0xfd987193; 0xa679438e; 0x49b40821; 0xf61e2562; 0xc040b340;
    0x265e5a51; 0xe9b6c7aa; 0xd62f105d; 0x02441453; 0xd8a1e681; 0xe7d3fbc8;
    0x21e1cde6; 0xc33707d6; 0xf4d50d87; 0x455a14ed; 0xa9e3e905; 0xfcefa3f8;
    0x676f02d9; 0x8d2a4c8a; 0xfffa3942; 0x8771f681; 0x6d9d6122; 0xfde5380c;
    0xa4beea44; 0x4bdecfa9; 0xf6bb4b60; 0xbebfbc70; 0x289b7ec6; 0xeaa127fa;
    0xd4ef3085; 0x04881d05; 0xd9d4d039; 0xe6db99e5; 0x1fa27cf8; 0xc4ac5665;
    0xf4292244; 0x432aff97; 0xab9423a7; 0xfc93a039; 0x655b59c3; 0x8f0ccc92;
    0xffeff47d; 0x85845dd1; 0x6fa87e4f; 0xfe2ce6e0; 0xa3014314; 0x4e0811a1;
    0xf7537e82; 0xbd3af235; 0x2ad7d2bb; 0xeb86d391 ].

Definition md5_S : list Z :=
  [ 7; 12; 17; 22; 7; 12; 17; 22; 7; 12; 17; 22; 7; 12; 17; 22;
    5; 9; 14; 20; 5; 9; 14; 20; 5; 9; 14; 20; 5; 9; 14; 20;
    4; 11; 16; 23; 4; 11; 16; 23; 4; 11; 16; 23; 4; 11; 16; 23;
    6; 10; 15; 21; 6; 10; 15; 21; 6; 10; 15; 21; 6; 10; 15; 21 ].

Definition md5_step (M : list Z) (st : Z * Z * Z * Z) (i : nat) : Z * Z * Z * Z :=
  let '(a, b, c, d) := st in
  let iz := Z.of_nat i in
  let '(f, g) :=
    if iz <? 16 then (Z.lor (Z.land b c) (Z.land (not32 b) d), iz)
    else if iz <? 32 then (Z.lor (Z.land d b) (Z.land (not32 d) c), (5 * iz + 1) mod 16)
    else if iz <? 48 then (Z.lxor b (Z.lxor c d), (3 * iz + 5) mod 16)
    else (Z.lxor c (Z.lor b (not32 d)), (7 * iz) mod 16) in
  let f' := add32 (add32 (add32 f a) (nth i md5_K 0)) (nth (Z.to_nat g) M 0) in
  (d, add32 b (rotl32 f' (nth i md5_S 0)), b, c).

Definition md5_block (st : Z * Z * Z * Z) (block : list Z) : Z * Z * Z * Z :=
  let '(a0, b0, c0, d0) := st in
  let '(a, b, c, d) := foldl (md5_step (words le_word block)) st (seq 0 64) in
  (add32 a0 a, add32 b0 b, add32 c0 c, add32 d0 d).

(** [hashlib.md5(s).digest()] *)
Definition md5 (s : string) : string :=
  let '(a, b, c, d) :=
    foldl md5_block (0x67452301, 0xefcdab89, 0x98badcfe, 0x10325476)
          (blocks (pad (le_bytes 8) (bytes_of_string s))) in
  string_of_bytes (le_bytes 4 a ++ le_bytes 4 b ++ le_bytes 4 c ++ le_bytes 4 d).

(** The message schedule of SHA-1, eighty words. *)
Definition sha1_extend (W : list Z) (t : nat) : list Z :=
  W ++ [rotl32 (Z.lxor (Z.lxor (nth (t - 3) W 0) (nth (t - 8) W 0))
                       (Z.lxor (nth (t - 14) W 0) (nth (t - 16) W 0))) 1].

Definition sha1_step (W : list Z) (st : Z * Z * Z * Z * Z) (t : nat)
  : Z * Z * Z * Z * Z :=
  let '(a, b, c, d, e) := st in
  let tz := Z.of_nat t in
  let '(f, k) :=
    if tz <? 20 then (Z.lor (Z.land b c) (Z.land (not32 b) d), 0x5A827999)
    else if tz <? 40 then (Z.lxor b (Z.lxor c d), 0x6ED9EBA1)
    else if tz <? 60
         then (Z.lor (Z.lor (Z.land b c) (Z.land b d)) (Z.land c d), 0x8F1BBCDC)
    else (Z.lxor b (Z.lxor c d), 0xCA62C1D6) in
  let temp := add32 (add32 (add32 (add32 (rotl32 a 5) f) e) k) (nth t W 0) in
  (temp, a, rotl32 b 30, c, d).

Definition sha1_block (st : Z * Z * Z * Z * Z) (block : list Z)
  : Z * Z * Z * Z * Z :=
  let '(a0, b0, c0, d0, e0) := st in
  let W := foldl sha1_extend (words be_word block) (seq 16 64) in
  let '(a, b, c, d, e) := foldl (sha1_step W) st (seq 0 80) in
  (add32 a0 a, add32 b0 b, add32 c0 c, add32 d0 d, add32 e0 e).

(** [hashlib.sha1(s).digest()] *)
Definition sha1 (s : string) : string :=
  let '(a, b, c, d, e) :=
    foldl sha1_block
          (0x67452301, 0xEFCDAB89, 0x98BADCFE, 0x10325476, 0xC3D2E1F0)
          (blocks (pad (be_bytes 8) (bytes_of_string s))) in
  string_of_bytes (be_bytes 4 a ++ be_bytes 4 b ++ be_bytes 4 c
                   ++ be_bytes 4 d ++ be_bytes 4 e).

End Hashlib.

(** ** [base64.encodebytes] *)
Module Base64.
Import Py.

Definition alphabet : string :=
  "ABCDEFGHIJKLMNOPQRSTUVWXYZabcdefghijklmnopqrstuvwxyz0123456789+/".

Definition sextet (n : Z) : ascii :=
  match String.get (Z.to_nat n) alphabet with
  | Some c => c
  | None => "="%char
  end.

(** Three bytes give four characters; a last group of one or two bytes is
    padded with [=]. *)
Fixpoint encode_groups (fuel : nat) (bs : list Z) : string :=
  match fuel with
  | O => EmptyString
  | S f =>
      match bs with
      | [] => EmptyString
      | [a] =>
          String (sextet (a / 4)) (String (sextet (a mod 4 * 16)) "==")
      | [a; b] =>
          String (sextet (a / 4))
            (String (sextet (a mod 4 * 16 + b / 16))
               (String (sextet (b mod 16 * 4)) "="))
      | a :: b :: c :: rest =>
          String (sextet (a / 4))
            (String (sextet (a mod 4 * 16 + b / 16))
               (String (sextet (b mod 16 * 4 + c / 64))
                  (String (sextet (c mod 64)) (encode_groups f rest))))
      end
  end.

(** [binascii.b2a_base64]: one line, newline-terminated. *)
Definition b2a_base64 (bs : list Z) : string :=
  encode_groups (S (length bs)) bs +:+ String "010"%char EmptyString.

(** [base64.encodebytes]: lines of at most 57 input bytes. *)
Fixpoint encode_lines (fuel : nat) (bs : list Z) : string :=
  match fuel with
  | O => EmptyString
  | S f =>
      match bs with
      | [] => EmptyString
      | _ => b2a_base64 (take 57 bs) +:+ encode_lines f (drop 57 bs)
      end
  end.
Definition encodebytes (s : string) : string :=
  let bs := bytes_of_string s in encode_lines (length bs) bs.

End Base64.

(** ** The world the request engine runs in *)

(** An HTTP response as far as the modelled code reads it: the status and
    the values of the [WWW-Authenticate] headers, in order. *)
Record response := {
  status : Z;
  www_authenticate : list string;
}.

(** A [str] or a [bytes] object. *)
Inductive text :=
| Str (s : string)
| Bytes (b : string).

(** A cached digest challenge.  The code keeps it in one dict whose values
    are the challenge's strings, except for the key ["max-nonce-time"], which
    holds a time stamp; [params] is that dict without this key and
    [max_nonce_time] is the value under it.  A time stamp is a binary64
    number, as [time.time()] gives it. *)
Record challenge := {
  params : gmap string string;
  max_nonce_time : float;
}.

(** A parsed calendar as far as the free-busy verifier reads it. *)
Record freebusy_property := {
  fbtype : option string;         (* the FBTYPE parameter, if any *)
  periods : list string;          (* period texts, start/end form *)
}.
Record vfreebusy := {
  attendees : list string;        (* values of the ATTENDEE properties *)
  freebusy : list freebusy_property;
}.
Record calendar := {
  vfreebusy_components : list vfreebusy;
  vevent_count : Z;
}.
Inductive parsed_calendar :=
| InvalidData                       (* pycalendar.exceptions.InvalidData *)
| ParseValueError (msg : string)    (* a ValueError, with its text *)
| OtherError (msg : string)         (* any other exception, with its text *)
| NoCalendar                        (* [parseText] returned [None] *)
| Parsed (c : calendar).

(** What a plug-in does with the argument mapping it is handed: a result
    (or an exception) and the contents of that mapping's lists afterwards. *)
Definition plugin (R : Type) : Type :=
  gmap string (list string) → Py.result R * gmap string (list string).

(** Collaborators outside [request.py]: the clock, the UUID source, the
    server, the file system, the substitution engine of [serverinfo], the
    regular-expression engine, the plug-in registries, the XML and calendar
    parsers. *)
Record Env := {
  clock : nat → float;                   (* successive [time.time()] readings *)
  uuid4 : nat → string;                  (* successive [str(uuid.uuid4())] *)
  server : nat → string → string → option response;
                                         (* n-th request: method, URI; [None]: transport failure *)
  quote_uri : string → string;           (* urlunparse after quoting the path *)
  read_file : string → option string;
  listdir : string → option (list string);
  subs : option (gmap string string) → string → string;
                                         (* [server_info.subs(text, db=None)] *)
  extrasubs_with : gmap string string → string → string;
                                         (* [server_info.extrasubs] over the extra dict *)
  extrasubs_bytes : gmap string string → string → Py.result text;
                                         (* the same, handed a [bytes] *)
  re_sub : string → string → string → string;
  today : Z * Z * Z;
  verifiers : string → option (string → response → string → plugin (bool * string));
  generators : string → option (plugin string);
  parse_xml : string → Py.result (list (option string));
      (* the texts of the response/calendar-data elements of the parsed
         body, or the exception [ElementTree] raised *)
  parseText : option (option string → parsed_calendar);
      (* [Calendar.parseText]; [None] when the import of pycalendar failed,
         which leaves the names [Calendar] and [InvalidData] unbound *)
  py_eval_int : string → Py.result Z;    (* [int(eval(text))] *)
}.

Record serverinfo := {
  si_host : string;
  si_port : Z;
  si_ssl : bool;
  si_afunix : option string;
  si_user : string;
  si_pswd : string;
  si_authtype : string;
}.

(** Mutable state: the manager and its server info, the class attribute
    [request.nc], the heap of header dicts and of argument lists (a reference
    is an index), and the counters of the environment's streams.  A header
    dict keeps its entries in insertion order, as a Python dict does. *)
Record world := {
  digestCache : gmap string challenge;
  nc : gmap (option string) Z;
  extrasubsdict : gmap string string;
  features : gset string;
  data_dir : string;
  dicts : list (list (string * text));   (* header dicts *)
  argdicts : list (gmap string nat);     (* [args] dicts: name to list reference *)
  lists : list (list string);            (* argument value lists *)
  clock_reads : nat;
  uuid_draws : nat;
  http_log : list (string * string);
}.

Definition set_digestCache (f : gmap string challenge → gmap string challenge) (w : world) : world :=
  {| digestCache := f (digestCache w); nc := nc w; extrasubsdict := extrasubsdict w;
     features := features w; data_dir := data_dir w; dicts := dicts w;
     argdicts := argdicts w; lists := lists w; clock_reads := clock_reads w;
     uuid_draws := uuid_draws w; http_log := http_log w |}.
Definition set_nc (f : gmap (option string) Z → gmap (option string) Z) (w : world) : world :=
  {| digestCache := digestCache w; nc := f (nc w); extrasubsdict := extrasubsdict w;
     features := features w; data_dir := data_dir w; dicts := dicts w;
     argdicts := argdicts w; lists := lists w; clock_reads := clock_reads w;
     uuid_draws := uuid_draws w; http_log := http_log w |}.
Definition set_extrasubsdict (f : gmap string string → gmap string string) (w : world) : world :=
  {| digestCache := digestCache w; nc := nc w; extrasubsdict := f (extrasubsdict w);
     features := features w; data_dir := data_dir w; dicts := dicts w;
     argdicts := argdicts w; lists := lists w; clock_reads := clock_reads w;
     uuid_draws := uuid_draws w; http_log := http_log w |}.
Definition set_dicts (f : list (list (string * text)) → list (list (string * text)))
    (w : world) : world :=
  {| digestCache := digestCache w; nc := nc w; extrasubsdict := extrasubsdict w;
     features := features w; data_dir := data_dir w; dicts := f (dicts w);
     argdicts := argdicts w; lists := lists w; clock_reads := clock_reads w;
     uuid_draws := uuid_draws w; http_log := http_log w |}.
Definition set_argdicts (f : list (gmap string nat) → list (gmap string nat)) (w : world) : world :=
  {| digestCache := digestCache w; nc := nc w; extrasubsdict := extrasubsdict w;
     features := features w; data_dir := data_dir w; dicts := dicts w;
     argdicts := f (argdicts w); lists := lists w; clock_reads := clock_reads w;
     uuid_draws := uuid_draws w; http_log := http_log w |}.
Definition set_lists (f : list (list string) → list (list string)) (w : world) : world :=
  {| digestCache := digestCache w; nc := nc w; extrasubsdict := extrasubsdict w;
     features := features w; data_dir := data_dir w; dicts := dicts w;
     argdicts := argdicts w; lists := f (lists w); clock_reads := clock_reads w;
     uuid_draws := uuid_draws w; http_log := http_log w |}.
Definition set_clock_reads (f : nat → nat) (w : world) : world :=
  {| digestCache := digestCache w; nc := nc w; extrasubsdict := extrasubsdict w;
     features := features w; data_dir := data_dir w; dicts := dicts w;
     argdicts := argdicts w; lists := lists w; clock_reads := f (clock_reads w);
     uuid_draws := uuid_draws w; http_log := http_log w |}.
Definition set_uuid_draws (f : nat → nat) (w : world) : world :=
  {| digestCache := digestCache w; nc := nc w; extrasubsdict := extrasubsdict w;
     features := features w; data_dir := data_dir w; dicts := dicts w;
     argdicts := argdicts w; lists := lists w; clock_reads := clock_reads w;
     uuid_draws := f (uuid_draws w); http_log := http_log w |}.
Definition set_http_log (f : list (string * string) → list (string * string)) (w : world) : world :=
  {| digestCache := digestCache w; nc := nc w; extrasubsdict := extrasubsdict w;
     features := features w; data_dir := data_dir w; dicts := dicts w;
     argdicts := argdicts w; lists := lists w; clock_reads := clock_reads w;
     uuid_draws := uuid_draws w; http_log := f (http_log w) |}.

(** Computations over a state; an exception keeps the state reached. *)
Definition St (S A : Type) : Type := S → Py.result A * S.

Global Instance St_ret {S} : MRet (St S) := λ A a s, (Py.Ok a, s).
Global Instance St_bind {S} : MBind (St S) := λ A B k m s,
  match m s with
  | (Py.Ok a, s') => k a s'
  | (Py.Raise e, s') => (Py.Raise e, s')
  end.

Definition raise {S A} (e : Py.exn) : St S A := λ s, (Py.Raise e, s).
Definition lift {S A} (r : Py.result A) : St S A := λ s, (r, s).
Definition gets {S A} (f : S → A) : St S A := λ s, (Py.Ok (f s), s).
Definition modify {S} (f : S → S) : St S unit := λ s, (Py.Ok tt, f s).
Definition from_opt {S A} (e : Py.exn) (o : option A) : St S A :=
  match o with Some a => mret a | None => raise e end.

(** Computations over the world alone, and their use by a method that also
    rebinds attributes of its object. *)
Abbreviation M := (St world).

Definition in_world {X A} (m : M A) : St (X * world) A := λ '(x, w),
  let '(r, w') := m w in (r, (x, w')).

(** ** Module-level functions of [request.py] *)

(** The table [algorithms]. *)
Definition algorithms (name : string) : option (string → string) :=
  if decide (name = "md5") then Some Hashlib.md5
  else if decide (name = "md5-sess") then Some Hashlib.md5
  else if decide (name = "sha") then Some Hashlib.sha1
  else None.

(** A hash object: its digest function and the bytes fed so far. *)
Record hashobj := {
  hfun : string → string;
  hbuf : string;
}.

(** [algorithms[name]()]: [KeyError] on a name outside the table. *)
Definition new_hash (name : string) : Py.result hashobj :=
  match algorithms name with
  | Some h => Py.Ok {| hfun := h; hbuf := EmptyString |}
  | None => Py.Raise Py.KeyError
  end.

(** [m.update(x)]: the bytes of a [bytes] are fed to the hash; a [str]
    and [None] raise [TypeError]. *)
Definition update (m : hashobj) (x : option text) : Py.result hashobj :=
  match x with
  | Some (Bytes b) => Py.Ok {| hfun := hfun m; hbuf := hbuf m +:+ b |}
  | Some (Str _) => Py.Raise Py.TypeError
  | None => Py.Raise Py.TypeError
  end.

(** [m.digest()], a [bytes]. *)
Definition digest (m : hashobj) : string := hfun m (hbuf m).

(** [s.decode('hex')] on a [str] and [b.encode('hex')] on a [bytes]: neither
    object has the attribute. *)
Definition str_decode_hex (s : string) : Py.result string := Py.Raise Py.AttributeError.
Definition bytes_encode_hex (b : string) : Py.result string := Py.Raise Py.AttributeError.

(** [calcHA1] and [calcResponse].  The arguments are [str] objects, as
    [gethttpdigestauth] hands them, or [None] where the challenge lacks the
    parameter. *)
Definition calcHA1 (pszAlg : string) (pszUserName : string) (pszRealm : option string)
    (pszPassword : string) (pszNonce pszCNonce : option string)
    (preHA1 : option string) : Py.result string :=
  if Py.otruthy preHA1 &&
       (Py.truthy pszUserName || Py.otruthy pszRealm || Py.truthy pszPassword)
  then Py.Raise Py.TypeError
  else
    HA1 ← match preHA1 with
          | None =>
              m ← new_hash pszAlg;
              m ← update m (Some (Str pszUserName));
              m ← update m (Some (Str ":"));
              m ← update m (Str <$> pszRealm);
              m ← update m (Some (Str ":"));
              m ← update m (Some (Str pszPassword));
              Py.Ok (digest m)
          | Some pre => str_decode_hex pre
          end;
    HA1 ← (if decide (pszAlg = "md5-sess") then
             m ← new_hash pszAlg;
             m ← update m (Some (Bytes HA1));
             m ← update m (Some (Str ":"));
             m ← update m (Str <$> pszNonce);
             m ← update m (Some (Str ":"));
             m ← update m (Str <$> pszCNonce);
             Py.Ok (digest m)
           else Py.Ok HA1);
    bytes_encode_hex HA1.

Definition calcResponse (HA1 : string) (algo : string) (pszNonce : option string)
    (pszNonceCount pszCNonce pszQop : option string)
    (pszMethod pszDigestUri : string) (pszHEntity : option string)
    : Py.result string :=
  m ← new_hash algo;
  m ← update m (Some (Str pszMethod));
  m ← update m (Some (Str ":"));
  m ← update m (Some (Str pszDigestUri));
  m ← (if decide (pszQop = Some "auth-int") then
         m ← update m (Some (Str ":"));
         update m (Str <$> pszHEntity)
       else Py.Ok m);
  HA2 ← bytes_encode_hex (digest m);
  m ← new_hash algo;
  m ← update m (Some (Str HA1));
  m ← update m (Some (Str ":"));
  m ← update m (Str <$> pszNonce);
  m ← update m (Some (Str ":"));
  m ← (if Py.otruthy pszNonceCount && Py.otruthy pszCNonce && Py.otruthy pszQop then
         m ← update m (Str <$> pszNonceCount);
         m ← update m (Some (Str ":"));
         m ← update m (Str <$> pszCNonce);
         m ← update m (Some (Str ":"));
         m ← update m (Str <$> pszQop);
         update m (Some (Str ":"))
       else Py.Ok m);
  m ← update m (Some (Str HA2));
  respHash ← bytes_encode_hex (digest m);
  Py.Ok respHash.

(** ** Shared pieces of the classes *)

(** [time.time()] *)
Definition time_time (E : Env) : M float := λ w,
  (Py.Ok (clock E (clock_reads w)), set_clock_reads S w).

(** [str(uuid.uuid4())] *)
Definition new_uuid (E : Env) : M string := λ w,
  (Py.Ok (uuid4 E (uuid_draws w)), set_uuid_draws S w).

(** [http.request(method, uri); http.getresponse()] on a new connection. *)
Definition http_request (E : Env) (method uri : string) : M response := λ w,
  let w' := set_http_log (λ l, l ++ [(method, uri)]) w in
  match server E (length (http_log w)) method uri with
  | Some r => (Py.Ok r, w')
  | None => (Py.Raise Py.TransportError, w')
  end.

(** [server_info.extrasubs(text)] *)
Definition extrasubs (E : Env) (text : string) : M string :=
  gets (λ w, extrasubs_with E (extrasubsdict w) text).

(** Modelled from the spec: [server_info.addextrasubs(items)], whose code
    is in [serverinfo.py]; the spec's capture "inserts/overwrites an
    extra-substitution entry". *)
Definition addextrasubs (items : gmap string string) : M unit :=
  modify (set_extrasubsdict (λ d, items ∪ d)).

(** Modelled from the spec: [server_info.hasextrasubs()], whose code is in
    [serverinfo.py]; the spec's [hasExtras] "reports whether any capture has
    occurred". *)
Definition hasextrasubs : M bool :=
  gets (λ w, negb (bool_decide (extrasubsdict w = ∅))).

(** Heap accesses. *)
Definition read_list (l : nat) : M (list string) :=
  gets (λ w, default [] (lists w !! l)).
Definition alloc_list (v : list string) : M nat := λ w,
  (Py.Ok (length (lists w)), set_lists (λ h, h ++ [v]) w).
Definition read_argdict (a : nat) : M (gmap string nat) :=
  gets (λ w, default ∅ (argdicts w !! a)).
Definition read_dict (d : nat) : M (list (string * text)) :=
  gets (λ w, default [] (dicts w !! d)).
Definition write_dict (d : nat) (f : list (string * text) → list (string * text)) : M unit :=
  modify (set_dicts (alter f d)).

(** [d[k] = v] on a dict: the entry of an existing key is replaced where it
    stands, a new key goes to the end. *)
Fixpoint dict_set (k : string) (v : text) (d : list (string * text)) : list (string * text) :=
  match d with
  | [] => [(k, v)]
  | (k', v') :: rest =>
      if decide (k' = k) then (k, v) :: rest else (k', v') :: dict_set k v rest
  end.

(** [d.get(k)] *)
Fixpoint dict_get (k : string) (d : list (string * text)) : option text :=
  match d with
  | [] => None
  | (k', v) :: rest => if decide (k' = k) then Some v else dict_get k rest
  end.

(** The loop [for name, values in self.args.items(): self.args[name] =
    [extrasubs(value) for value in values]] of [doVerify] and [doGenerate],
    over the snapshot [items]: every name is rebound to a new list. *)
Fixpoint resolve_items (E : Env) (args : nat) (items : list (string * nat)) : M unit :=
  match items with
  | [] => mret tt
  | (name, l) :: rest =>
      values ← read_list l;
      d ← gets extrasubsdict;
      l' ← alloc_list (extrasubs_with E d <$> values);
      modify (set_argdicts (alter (insert name l') args));;
      resolve_items E args rest
  end.

Definition resolve_args (E : Env) (args : nat) : M unit :=
  hasextrasubs ≫= λ has : bool,
  if has then
    d ← read_argdict args;
    resolve_items E args (map_to_list d)
  else mret tt.

(** [dict((k, list(v)) for k, v in self.args.items())]: a new dict of new
    lists.  The new dict is held by the callee alone and is kept as a value. *)
Fixpoint clone_items (items : list (string * nat)) : M (gmap string nat) :=
  match items with
  | [] => mret ∅
  | (k, l) :: rest =>
      v ← read_list l;
      l' ← alloc_list v;
      m ← clone_items rest;
      mret (<[k := l']> m)
  end.

Definition clone_args (args : nat) : M (gmap string nat) :=
  d ← read_argdict args;
  clone_items (map_to_list d).

(** What the lists referenced by [a] hold. *)
Definition contents (a : gmap string nat) (h : list (list string)) : gmap string (list string) :=
  (λ l, default [] (h !! l)) <$> a.

(** The lists referenced by [a] after a callee changed them to [after]. *)
Definition write_back (a : list (string * nat)) (after : gmap string (list string))
    (h : list (list string)) : list (list string) :=
  foldr (λ '(k, l) h, match after !! k with Some v => <[l := v]> h | None => h end) h a.

(** A plug-in call: the plug-in works on the lists it is handed, through the
    references in [a]. *)
Definition call_plugin {R} (p : plugin R) (a : gmap string nat) : M R := λ w,
  let '(r, after) := p (contents a (lists w)) in
  (r, set_lists (write_back (map_to_list a) after) w).

(** ** [class generator] *)
Module Generator.

Record generator := {
  callback : option string;
  args : nat;                     (* reference to the [args] dict *)
}.

Definition doGenerate (E : Env) (self : generator) : M string :=
  resolve_args E (args self);;
  cb ← from_opt Py.TypeError (callback self);
  gen ← from_opt Py.ImportError (generators E cb);
  a ← clone_args (args self);
  call_plugin gen a.

End Generator.

(** ** [class verify] *)
Module Verify.

Record verify := {
  require_features : gset string;
  exclude_features : gset string;
  callback : option string;
  args : nat;                     (* reference to the [args] dict *)
}.

Definition missingFeatures (self : verify) : M (gset string) :=
  gets (λ w, require_features self ∖ features w).

Definition excludedFeatures (self : verify) : M (gset string) :=
  gets (λ w, exclude_features self ∩ features w).

Definition doVerify (E : Env) (self : verify) (uri : string) (resp : response)
    (respdata : string) : M (bool * string) :=
  resolve_args E (args self);;
  cb ← from_opt Py.TypeError (callback self);
  verifier ← from_opt Py.ImportError (verifiers E ("verifiers." +:+ cb));
  a ← clone_args (args self);
  call_plugin (verifier uri resp respdata) a.

End Verify.

(** ** [class data] *)
Module Data.

Record data := {
  content_type : string;
  filepath : string;
  generator : option Generator.generator;
  value : string;
  substitutions : gmap string string;
  substitute : bool;
  generate : bool;
  nextpath : option string;       (* the attribute exists or not *)
}.

Definition set_nextpath (p : option string) (d : data) : data :=
  {| content_type := content_type d; filepath := filepath d; generator := generator d;
     value := value d; substitutions := substitutions d; substitute := substitute d;
     generate := generate d; nextpath := p |}.

End Data.

(** ** [class request] *)
Module Request.

Record request := {
  auth : bool;
  user : string;
  pswd : string;
  require_features : gset string;
  exclude_features : gset string;
  method : string;
  headers : nat;                  (* reference to the header dict *)
  ruri : string;
  data : option Data.data;
  count : Z;
  dataList : option (list string);  (* the attribute exists or not *)
}.

Definition set_data (d : option Data.data) (r : request) : request :=
  {| auth := auth r; user := user r; pswd := pswd r;
     require_features := require_features r; exclude_features := exclude_features r;
     method := method r; headers := headers r; ruri := ruri r; data := d;
     count := count r; dataList := dataList r |}.
Definition set_dataList (l : option (list string)) (r : request) : request :=
  {| auth := auth r; user := user r; pswd := pswd r;
     require_features := require_features r; exclude_features := exclude_features r;
     method := method r; headers := headers r; ruri := ruri r; data := data r;
     count := count r; dataList := l |}.

Definition missingFeatures (self : request) : M (gset string) :=
  gets (λ w, require_features self ∖ features w).

Definition excludedFeatures (self : request) : M (gset string) :=
  gets (λ w, exclude_features self ∩ features w).

(** ["?" not in uri or uri.find("?") > uri.find(placeholder)] *)
Definition before_query (placeholder uri : string) : bool :=
  negb (Py.contains "?" uri) || (Py.find placeholder uri <? Py.find "?" uri).

Definition getURI (E : Env) (self : request) : M string :=
  uri ← extrasubs E (ruri self);
  if Py.contains "**" uri then
    if before_query "**" uri then
      u ← new_uuid E;
      mret (Py.replace "**" u uri)
    else mret uri
  else if Py.contains "##" uri then
    if before_query "##" uri then
      mret (Py.replace "##" (Py.str_of_int (count self)) uri)
    else mret uri
  else mret uri.

(** [[a, b][a == ""]] *)
Definition or_default (a b : string) : string :=
  if decide (a = "") then b else a.

(** The result is a [bytes]: [b"Basic "], the base64 of the UTF-8 bytes
    of user:password, line feeds removed. *)
Definition gethttpbasicauth (self : request) (si : serverinfo) : text :=
  let basicauth := or_default (user self) (si_user si) in
  let basicauth := basicauth +:+ ":" in
  let basicauth := basicauth +:+ or_default (pswd self) (si_pswd si) in
  let basicauth := "Basic " +:+ Base64.encodebytes (Py.encode_utf8 basicauth) in
  Bytes (Py.replace (String "010"%char "") "" basicauth).

(** [unq] of [gethttpdigestauth]. *)
Definition unq (s : string) : Py.result string :=
  match s with
  | EmptyString => Py.Raise Py.IndexError
  | String c _ =>
      if bool_decide (Some c = Py.last_char s) && bool_decide (Py.last_char s = Some (ascii_of_N 34))
      then Py.Ok (Py.drop_last (Py.drop_prefix 1 s))
      else Py.Ok s
  end.

(** [for (k, v) in [p.split('=', 1) for p in parts]: details[k.strip()] =
    unq(v.strip())] *)
Fixpoint parse_parts (parts : list string) (details : gmap string string)
  : Py.result (gmap string string) :=
  match parts with
  | [] => Py.Ok details
  | p :: rest =>
      match Py.split1 "="%char p with
      | [k; v] =>
          v' ← unq (Py.strip v);
          parse_parts rest (<[Py.strip k := v']> details)
      | _ => Py.Raise Py.ValueError
      end
  end.

(** The loop over the [WWW-Authenticate] values of a 401 response: the
    first [Digest] challenge is parsed, stamped and cached. *)
Fixpoint harvest (E : Env) (user : string) (items : list string) : M (option challenge) :=
  match items with
  | [] => mret None
  | item :: rest =>
      if negb (Py.startswith "digest " (Py.lower item)) then harvest E user rest
      else
        d ← lift (parse_parts (Py.split ","%char (Py.drop_prefix 7 item)) ∅);
        t ← time_time E;
        let details := {| params := delete "max-nonce-time" d;
                          max_nonce_time := PrimFloat.add t 600%float |} in
        modify (set_digestCache (insert user details));;
        mret (Some details)
  end.

(** [a > b] on binary64 numbers. *)
Definition gt (a b : float) : bool := PrimFloat.ltb b a.

(** The unauthenticated probe. *)
Definition probe (E : Env) (self : request) : M response :=
  uri ← getURI E self;
  http_request E "OPTIONS" (quote_uri E uri).

(** First half of [gethttpdigestauth]: the challenge to use, from the cache
    while it is young, else from a probe; [None] when there is none. *)
Definition get_details (E : Env) (self : request) (si : serverinfo) : M (option challenge) :=
  let user := or_default (user self) (si_user si) in
  cache ← gets digestCache;
  match cache !! user with
  | Some d =>
      time_time E ≫= λ now : float,
      if gt (max_nonce_time d) now then mret (Some d)
      else
        probe E self ≫= λ resp : response,
        if status resp =? 401 then harvest E user (www_authenticate resp)
        else mret None
  | None =>
      probe E self ≫= λ resp : response,
      if status resp =? 401 then harvest E user (www_authenticate resp)
      else mret None
  end.

Definition default_cnonce : string := "D4AAE4FF-ADA1-4149-BFE2-B506F9264318".

Definition set_param (k v : string) (d : challenge) : challenge :=
  {| params := <[k := v]> (params d); max_nonce_time := max_nonce_time d |}.

(** The branch [if details.get('qop')]: the nonce count of the class
    attribute [nc] goes up, and [details], which is the cached dict itself,
    receives [nc] and, if it has none, the default [cnonce]. *)
Definition count_nonce (user : string) (details : challenge) : M challenge :=
  let nonce := params details !! "nonce" in
  modify (set_nc (λ t, match t !! nonce with
                       | None => <[nonce := 1]> t
                       | Some c => <[nonce := c + 1]> t
                       end));;
  t ← gets nc;
  let details := set_param "nc" (Py.format_08x (default 0 (t !! nonce))) details in
  let details := match params details !! "cnonce" with
                 | None => set_param "cnonce" default_cnonce details
                 | Some _ => details
                 end in
  modify (set_digestCache (insert user details));;
  mret details.

(** The digest and the header value for [details], after the nonce count. *)
Definition digest_header (E : Env) (self : request) (user pswd : string)
    (details : challenge) : M string :=
  let get k := params details !! k in
  let algorithm := default "md5" (get "algorithm") in
  HA1 ← lift (calcHA1 algorithm user (get "realm") pswd (get "nonce") (get "cnonce") None);
  uri ← getURI E self;
  digest ← lift (calcResponse HA1 algorithm (get "nonce") (get "nc") (get "cnonce")
                   (get "qop") (method self) uri None);
  uri ← getURI E self;
  if Py.otruthy (get "qop") then
    mret ("Digest username=" +:+ Py.dq +:+ user +:+ Py.dq
          +:+ ", realm=" +:+ Py.dq +:+ Py.fmt (get "realm") +:+ Py.dq
          +:+ ", nonce=" +:+ Py.dq +:+ Py.fmt (get "nonce") +:+ Py.dq
          +:+ ", uri=" +:+ Py.dq +:+ uri +:+ Py.dq
          +:+ ", response=" +:+ digest
          +:+ ", algorithm=" +:+ algorithm
          +:+ ", cnonce=" +:+ Py.dq +:+ Py.fmt (get "cnonce") +:+ Py.dq
          +:+ ", qop=" +:+ Py.fmt (get "qop")
          +:+ ", nc=" +:+ Py.fmt (get "nc"))
  else
    mret ("Digest username=" +:+ Py.dq +:+ user +:+ Py.dq
          +:+ ", realm=" +:+ Py.dq +:+ Py.fmt (get "realm") +:+ Py.dq
          +:+ ", nonce=" +:+ Py.dq +:+ Py.fmt (get "nonce") +:+ Py.dq
          +:+ ", uri=" +:+ Py.dq +:+ uri +:+ Py.dq
          +:+ ", response=" +:+ digest
          +:+ ", algorithm=" +:+ Py.fmt (get "algorithm")).

(** Second half of [gethttpdigestauth]: the branch [if details]. *)
Definition build_digest (E : Env) (self : request) (si : serverinfo)
    (details : challenge) : M string :=
  let user := or_default (user self) (si_user si) in
  let pswd := or_default (pswd self) (si_pswd si) in
  details ← (if Py.otruthy (params details !! "qop")
             then count_nonce user details else mret details);
  digest_header E self user pswd details.

Definition gethttpdigestauth (E : Env) (self : request) (si : serverinfo) : M string :=
  get_details E self si ≫= λ details : option challenge,
  match details with
  | Some d => build_digest E self si d
  | None => mret ""
  end.

(** [si.extrasubs(value)] on a header value. *)
Definition extrasubs_text (E : Env) (value : text) : M text :=
  match value with
  | Str s => s' ← extrasubs E s; mret (Str s')
  | Bytes b => d ← gets extrasubsdict; lift (extrasubs_bytes E d b)
  end.

(** The loop [for key, value in hdrs.items(): hdrs[key] = si.extrasubs(value)],
    over the entries [items] of the dict: an exception leaves the entries
    before it rewritten. *)
Fixpoint resolve_headers (E : Env) (hdrs : nat) (items : list (string * text)) : M unit :=
  match items with
  | [] => mret tt
  | (key, value) :: rest =>
      v ← extrasubs_text E value;
      write_dict hdrs (dict_set key v);;
      resolve_headers E hdrs rest
  end.

Definition getHeaders (E : Env) (self : request) (si : serverinfo) : M nat :=
  let hdrs := headers self in
  items ← read_dict hdrs;
  resolve_headers E hdrs items;;
  match data self with
  | Some body => write_dict hdrs (dict_set "Content-Type" (Str (Data.content_type body)))
  | None => mret tt
  end;;
  (if auth self then
     if decide (Py.lower (si_authtype si) = "basic") then
       write_dict hdrs (dict_set "Authorization" (gethttpbasicauth self si))
     else if decide (Py.lower (si_authtype si) = "digest") then
       v ← gethttpdigestauth E self si;
       write_dict hdrs (dict_set "Authorization" (Str v))
     else mret tt
   else mret tt);;
  mret hdrs.

Definition getFilePath (self : request) : M string :=
  match data self with
  | Some body =>
      gets (λ w, if Py.truthy (data_dir w)
                 then Py.path_join (data_dir w) (Data.filepath body)
                 else Data.filepath body)
  | None => mret ""
  end.

Definition generateCalendarData (E : Env) (self : request) (text : string) : M string :=
  u ← new_uuid E;
  let text := re_sub E "UID:.*" ("UID:" +:+ u) text in
  let text := re_sub E "SUMMARY:(.*)" ("SUMMARY:\1 #" +:+ Py.str_of_int (count self)) text in
  let '(year, month, day) := today E in
  let stamp := "\1:" +:+ Py.format_0d 4 year +:+ Py.format_0d 2 month +:+ Py.format_0d 2 day in
  let text := re_sub E "(DTSTART;[^:]*):[0-9]{8,8}" stamp text in
  let text := re_sub E "(DTEND;[^:]*):[0-9]{8,8}" stamp text in
  mret text.

Definition getData (E : Env) (self : request) : M string :=
  match data self with
  | None => mret ""
  | Some body =>
      text ← (if negb (String.length (Data.value body) =? 0)%nat then mret (Data.value body)
              else if Py.truthy (Data.filepath body) then
                path ← match Data.nextpath body with
                       | Some p => mret p
                       | None => getFilePath self
                       end;
                from_opt Py.IOError (read_file E path)
              else mret "");
      let text := subs E None text in
      addextrasubs {[ "$request_count:" := Py.str_of_int (count self) ]};;
      text ← extrasubs E text;
      let text := if bool_decide (Data.substitutions body = ∅) then text
                  else subs E (Some (Data.substitutions body)) text in
      if Data.generate body then
        if Py.startswith "text/calendar" (Data.content_type body)
        then generateCalendarData E self text
        else mret text
      else
        match Data.generator body with
        | Some g => Generator.doGenerate E g
        | None => mret text
        end
  end.

(** [sorted([path for path in os.listdir(dir) if not path.startswith(".")])] *)
Definition visible (entries : list string) : list string :=
  List.filter (λ path, negb (Py.startswith "." path)) entries.
Definition sorted (l : list string) : list string := merge_sort String.le l.

Definition list_directory (E : Env) (self : request) : M (list string) :=
  path ← getFilePath self;
  entries ← from_opt Py.IOError (listdir E path);
  mret (sorted (visible entries)).

Definition getNextData (E : Env) : St (request * world) bool :=
  gets fst ≫= λ self : request,
  match dataList self with
  | None =>
      l ← in_world (list_directory E self);
      modify (λ '(r, w), (set_dataList (Some l) r, w))
  | Some _ => mret tt
  end;;
  gets fst ≫= λ self : request,
  match dataList self with
  | Some (next :: rest) =>
      dir ← in_world (getFilePath self);
      modify (λ '(r, w), (set_dataList (Some rest) r, w));;
      match data self with
      | Some body =>
          modify (λ '(r, w),
            (set_data (Some (Data.set_nextpath (Some (Py.path_join dir next)) body)) r, w));;
          mret true
      | None => raise Py.AttributeError
      end
  | _ =>
      modify (λ '(r, w),
        (set_dataList None (set_data (Data.set_nextpath None <$> data r) r), w));;
      mret false
  end.

Definition hasNextData (E : Env) : St (request * world) bool :=
  gets fst ≫= λ self : request,
  l ← in_world (list_directory E self);
  mret (negb (length l =? 0)%nat).

End Request.

(** ** [class testsuite] *)
Module Testsuite.

Record testsuite := {
  name : string;
  ignore : bool;
  only : bool;
  changeuid : bool;
  require_features : gset string;
  exclude_features : gset string;
}.

Definition missingFeatures (self : testsuite) : M (gset string) :=
  gets (λ w, require_features self ∖ features w).

Definition excludedFeatures (self : testsuite) : M (gset string) :=
  gets (λ w, exclude_features self ∩ features w).

End Testsuite.

(** ** [verifiers/postFreeBusy.py] *)
Module PostFreeBusy.

(** [args.get(k, [])] *)
Definition get_arg (args : gmap string (list string)) (k : string) : list string :=
  default [] (args !! k).

(** The first ATTENDEE value that is one of [users]. *)
Fixpoint first_known (attendee_values users : list string) : option string :=
  match attendee_values with
  | [] => None
  | a :: rest => if bool_decide (a ∈ users) then Some a else first_known rest users
  end.

(** [users.remove(x)] for an [x] in [users]. *)
Fixpoint remove_first (x : string) (users : list string) : list string :=
  match users with
  | [] => []
  | u :: rest => if decide (u = x) then rest else u :: remove_first x rest
  end.

(** The FREEBUSY periods by type; [inl msg] is a [ValueError]. *)
Fixpoint collect (props : list freebusy_property)
    (acc : list string * list string * list string)
  : string + (list string * list string * list string) :=
  match props with
  | [] => inr acc
  | fp :: rest =>
      let '(busyp, tentativep, unavailablep) := acc in
      let kind := default "BUSY" (fbtype fp) in
      if decide (kind = "BUSY") then
        collect rest (busyp ++ periods fp, tentativep, unavailablep)
      else if decide (kind = "BUSY-TENTATIVE") then
        collect rest (busyp, tentativep ++ periods fp, unavailablep)
      else if decide (kind = "BUSY-UNAVAILABLE") then
        collect rest (busyp, tentativep, unavailablep ++ periods fp)
      else inl ("Unknown FBTYPE: " +:+ kind)
  end.

(** [len(a.symmetric_difference(b))] is not zero. *)
Definition differ (a b : list string) : bool :=
  let sa : gset string := list_to_set a in
  let sb : gset string := list_to_set b in
  negb (bool_decide ((sa ∖ sb) ∪ (sb ∖ sa) = ∅)).

(** The checks on the component of the attendee found; [Some msg] is a
    [ValueError]. *)
Definition check_periods (c : calendar) (fb : vfreebusy)
    (busy tentative unavailable : list string) (events : option Z) : option string :=
  match collect (freebusy fb) ([], [], []) with
  | inl msg => Some msg
  | inr (busyp, tentativep, unavailablep) =>
      if negb (length busy =? length busyp)%nat
         || negb (length unavailable =? length unavailablep)%nat
         || negb (length tentative =? length tentativep)%nat
      then Some "Period list sizes do not match."
      else if differ busyp busy then Some "Busy periods do not match"
      else if differ tentativep tentative then Some "Busy-tentative periods do not match"
      else if differ unavailablep unavailable then Some "Busy-unavailable periods do not match"
      else match events with
           | Some n =>
               if negb (vevent_count c =? n) then Some "Number of VEVENTs does not match"
               else None
           | None => None
           end
  end.

Definition invalid (msg : string) : bool * string :=
  (false, "        HTTP response data is invalid: " +:+ msg).

(** The loop over the calendar-data elements: the attendee list as the loop
    leaves it, and the verdict of an early [return] or the exception that
    ends it, if any.  With pycalendar not imported the first element raises
    [NameError], at [Calendar] and again at the [except InvalidData] that
    would catch it. *)
Fixpoint scan (E : Env) (cals : list (option string))
    (users busy tentative unavailable : list string) (events : option Z)
  : list string * option (Py.result (bool * string)) :=
  match cals with
  | [] => (users, None)
  | text :: rest =>
      match parseText E with
      | None => (users, Some (Py.Raise Py.NameError))
      | Some parse =>
          match parse text with
          | InvalidData =>
              (users, Some (Py.Ok (false, "        HTTP response data is not a calendar")))
          | ParseValueError msg => (users, Some (Py.Ok (invalid msg)))
          | OtherError msg =>
              (users, Some (Py.Ok (false, "        Response data is not calendar data: "
                                          +:+ msg)))
          | NoCalendar => (users, Some (Py.Ok (invalid "Not a calendar: None")))
          | Parsed c =>
              match vfreebusy_components c with
              | [fb] =>
                  match first_known (attendees fb) users with
                  | None => scan E rest users busy tentative unavailable events
                  | Some a =>
                      let users := remove_first a users in
                      match check_periods c fb busy tentative unavailable events with
                      | Some msg => (users, Some (Py.Ok (invalid msg)))
                      | None => (users, None)
                      end
                  end
              | _ => (users,
                      Some (Py.Ok (invalid "Wrong number or unexpected components in calendar")))
              end
          end
      end
  end.

Definition newline : string := String "010"%char EmptyString.

(** [Verifier.verify(manager, uri, response, respdata, args)] *)
Definition verify (E : Env) (uri : string) (resp : response) (respdata : string)
  : plugin (bool * string) := λ args,
  if negb (status resp =? 200) then
    (Py.Ok (false, "        HTTP Status Code Wrong: " +:+ Py.str_of_int (status resp)), args)
  else
    let users := get_arg args "attendee" in
    let busy := get_arg args "busy" in
    let tentative := get_arg args "tentative" in
    let unavailable := get_arg args "unavailable" in
    let events :=
      match get_arg args "events" with
      | [text] => n ← py_eval_int E text; Py.Ok (Some n)
      | _ => Py.Ok None
      end in
    match events with
    | Py.Raise e => (Py.Raise e, args)
    | Py.Ok events =>
        match parse_xml E respdata with
        | Py.Raise Py.ExpatError =>
            (Py.Ok (false, "           Could not parse proper XML response" +:+ newline), args)
        | Py.Raise e => (Py.Raise e, args)
        | Py.Ok cals =>
            let '(users, early) := scan E cals users busy tentative unavailable events in
            let args := match args !! "attendee" with
                        | Some _ => <["attendee" := users]> args
                        | None => args
                        end in
            match early with
            | Some outcome => (outcome, args)
            | None =>
                if negb (length users =? 0)%nat then
                  (Py.Ok (false, "           Could not find attendee/calendar data in XML response"
                                 +:+ newline), args)
                else (Py.Ok (true, ""), args)
            end
        end
    end.

End PostFreeBusy.

(** * Notions and objects of the statements *)

(** The world before anything ran. *)
Definition empty_world : world :=
  {| digestCache := ∅; nc := ∅; extrasubsdict := ∅; features := ∅; data_dir := "";
     dicts := []; argdicts := []; lists := []; clock_reads := 0; uuid_draws := 0;
     http_log := [] |}.

Definition set_features (f : gset string) (w : world) : world :=
  {| digestCache := digestCache w; nc := nc w; extrasubsdict := extrasubsdict w;
     features := f; data_dir := data_dir w; dicts := dicts w;
     argdicts := argdicts w; lists := lists w; clock_reads := clock_reads w;
     uuid_draws := uuid_draws w; http_log := http_log w |}.

Definition set_data_dir (d : string) (w : world) : world :=
  {| digestCache := digestCache w; nc := nc w; extrasubsdict := extrasubsdict w;
     features := features w; data_dir := d; dicts := dicts w;
     argdicts := argdicts w; lists := lists w; clock_reads := clock_reads w;
     uuid_draws := uuid_draws w; http_log := http_log w |}.

(** A request as [__init__] leaves it, with header dict [h]. *)
Definition new_request (h : nat) : Request.request :=
  {| Request.auth := true; Request.user := ""; Request.pswd := "";
     Request.require_features := ∅; Request.exclude_features := ∅;
     Request.method := ""; Request.headers := h; Request.ruri := "";
     Request.data := None; Request.count := 1; Request.dataList := None |}.

(** Every key of the dict is replaced by its value. *)
Definition replace_all (d : gmap string string) (text : string) : string :=
  map_fold (λ k v acc, Py.replace k v acc) text d.

(** The challenge of the example of RFC 2617, section 3.5. *)
Definition demo_challenge : string :=
  "Digest realm=" +:+ Py.dq +:+ "testrealm@host.com" +:+ Py.dq
  +:+ ", qop=" +:+ Py.dq +:+ "auth" +:+ Py.dq
  +:+ ", nonce=" +:+ Py.dq +:+ "dcd98b7102dd2f0e8b11d0f600bfb0c093" +:+ Py.dq
  +:+ ", algorithm=md5".

(** An environment for the examples: a clock that advances by 100 seconds
    per reading, numbered identifiers, a server that answers every request
    with [demo_challenge], two fixture directories and one fixture file,
    textual replacement for the substitutions, which a [bytes] refuses, and
    no pycalendar. *)
Definition demo_env : Env :=
  {| clock := λ n, PrimFloat.mul 100%float (PrimFloat.of_uint63 (Uint63.of_Z (Z.of_nat n)));
     uuid4 := λ n, "uuid-" +:+ pretty n;
     server := λ _ _ _, Some {| status := 401; www_authenticate := [demo_challenge] |};
     quote_uri := λ uri, uri;
     read_file := λ path, if decide (path = "fixtures/body.txt") then Some "hello $name: #$request_count:" else None;
     listdir := λ path,
       if decide (path = "fixtures/events") then Some ["b.ics"; ".hidden"; "a.ics"]
       else if decide (path = "fixtures/") then Some ["body.txt"]
       else None;
     subs := λ db text, match db with Some d => replace_all d text | None => text end;
     extrasubs_with := replace_all;
     extrasubs_bytes := λ _ _, Py.Raise Py.TypeError;
     re_sub := λ _ _ text, text;
     today := (2016, 1, 31);
     verifiers := λ _, None;
     generators := λ _, None;
     parse_xml := λ _, Py.Ok [];
     parseText := None;
     py_eval_int := λ _, Py.Raise Py.OtherException |}.

Definition set_ruri (u : string) (r : Request.request) : Request.request :=
  {| Request.auth := Request.auth r; Request.user := Request.user r;
     Request.pswd := Request.pswd r;
     Request.require_features := Request.require_features r;
     Request.exclude_features := Request.exclude_features r;
     Request.method := Request.method r; Request.headers := Request.headers r;
     Request.ruri := u; Request.data := Request.data r;
     Request.count := Request.count r; Request.dataList := Request.dataList r |}.

(** The request after [getNextData] pinned [path] and left [rest] in the
    cursor. *)
Definition advanced (path : string) (rest : list string) (body : Data.data)
    (self : Request.request) : Request.request :=
  Request.set_data (Some (Data.set_nextpath (Some path) body))
    (Request.set_dataList (Some rest) self).

(** The request after [getNextData] reported exhaustion. *)
Definition exhausted (self : Request.request) : Request.request :=
  Request.set_dataList None
    (Request.set_data (Data.set_nextpath None <$> Request.data self) self).

(** [getNextData] called until it returns [False], at most [fuel] times: the
    paths pinned by the calls that returned [True], and the state left by
    the call that returned [False]. *)
Fixpoint iterate_data (E : Env) (fuel : nat) (s : Request.request * world)
  : list (option string) * option (Request.request * world) :=
  match fuel with
  | O => ([], None)
  | S f =>
      match Request.getNextData E s with
      | (Py.Ok true, s') =>
          let '(paths, final) := iterate_data E f s' in
          ((Request.data (fst s') ≫= Data.nextpath) :: paths, final)
      | (Py.Ok false, s') => ([], Some s')
      | (Py.Raise _, _) => ([], None)
      end
  end.

(** A body read from the fixture directory [events]. *)
Definition demo_body : Data.data :=
  {| Data.content_type := "text/calendar"; Data.filepath := "events";
     Data.generator := None; Data.value := ""; Data.substitutions := ∅;
     Data.substitute := true; Data.generate := false; Data.nextpath := None |}.

(** The text [getData] has after its substitution steps, from the raw text:
    static substitutions, extra substitutions over the extra dict [d], then
    the body's own table when it is not empty. *)
Definition substituted (E : Env) (d : gmap string string) (body : Data.data)
    (raw : string) : string :=
  let text := extrasubs_with E d (subs E None raw) in
  if bool_decide (Data.substitutions body = ∅) then text
  else subs E (Some (Data.substitutions body)) text.

(** The last step of [getData]: calendar rewriting, or the generator, or
    the text as it is. *)
Definition generated (E : Env) (self : Request.request) (body : Data.data)
    (text : string) : M string :=
  if Data.generate body then
    if Py.startswith "text/calendar" (Data.content_type body)
    then Request.generateCalendarData E self text
    else mret text
  else
    match Data.generator body with
    | Some g => Generator.doGenerate E g
    | None => mret text
    end.

(** The world once [$request_count:] is captured. *)
Definition counted (self : Request.request) (w : world) : world :=
  set_extrasubsdict (insert "$request_count:" (Py.str_of_int (Request.count self))) w.

(** A body read from the file [path]. *)
Definition file_body (path : string) : Data.data :=
  {| Data.content_type := "text/plain"; Data.filepath := path;
     Data.generator := None; Data.value := ""; Data.substitutions := ∅;
     Data.substitute := true; Data.generate := false; Data.nextpath := None |}.

(** A world with a data directory and one captured variable. *)
Definition demo_world : world :=
  set_extrasubsdict (λ _, {[ "$name:" := "alice" ]}) (set_data_dir "fixtures" empty_world).

(** [m] never changes the component [f] of the world. *)
Definition keeps {X A} (f : world → X) (m : M A) : Prop := ∀ w, f (snd (m w)) = f w.

(** The continuation of the probe in [get_details]. *)
Definition after_probe (E : Env) (user : string) (resp : response) : M (option challenge) :=
  if status resp =? 401 then Request.harvest E user (www_authenticate resp) else mret None.

(** The challenge after the nonce count [n] was written into it. *)
Definition with_count (n : Z) (d : challenge) : challenge :=
  let d := Request.set_param "nc" (Py.format_08x n) d in
  match params d !! "cnonce" with
  | None => Request.set_param "cnonce" Request.default_cnonce d
  | Some _ => d
  end.

(** A run against the server of [demo_env], which answers every request
    with the same digest challenge. *)
Definition demo_si (user : string) : serverinfo :=
  {| si_host := "localhost"; si_port := 8008; si_ssl := false; si_afunix := None;
     si_user := user; si_pswd := "Circle Of Life"; si_authtype := "digest" |}.

Definition demo_request (method : string) : Request.request :=
  {| Request.auth := true; Request.user := ""; Request.pswd := "";
     Request.require_features := ∅; Request.exclude_features := ∅;
     Request.method := method; Request.headers := 0; Request.ruri := "/dir/index.html";
     Request.data := None; Request.count := 1; Request.dataList := None |}.

Definition demo_nonce : option string := Some "dcd98b7102dd2f0e8b11d0f600bfb0c093".

Definition demo_first : Py.result string * world :=
  Request.gethttpdigestauth demo_env (demo_request "GET") (demo_si "Mufasa") empty_world.

Definition demo_second : Py.result string * world :=
  Request.gethttpdigestauth demo_env (demo_request "PUT") (demo_si "Simba") (snd demo_first).

(** The exception of a digest that is not computed: [TypeError] of the
    first [update] when the algorithm is in the table, [KeyError] of the
    table otherwise. *)
Definition digest_failure (alg : string) : Py.exn :=
  match algorithms alg with Some _ => Py.TypeError | None => Py.KeyError end.

(** The world a probe starts from: the time was read if the cache had an
    entry for the user. *)
Definition probing (user : string) (w : world) : world :=
  match digestCache w !! user with
  | Some _ => set_clock_reads S w
  | None => w
  end.

(** The wire form of a challenge: [Digest k1="v1", k2="v2", ...]. *)
Definition quoted_pair (kv : string * string) : string :=
  kv.1 +:+ "=" +:+ Py.dq +:+ kv.2 +:+ Py.dq.
Definition challenge_text (kvs : list (string * string)) : string :=
  "Digest " +:+ String.concat ", " (quoted_pair <$> kvs).

(** A parameter that can be written in that form: no comma, no [=] and no
    outer white space in the name, no comma in the value. *)
Definition plain_parameter (kv : string * string) : Prop :=
  Py.contains "," kv.1 = false ∧ Py.contains "=" kv.1 = false ∧ Py.strip kv.1 = kv.1
  ∧ Py.contains "," kv.2 = false.

(** The dict built from the pairs, a later pair overwriting an earlier one. *)
Definition dict_of (kvs : list (string * string)) : gmap string string :=
  foldl (λ m kv, <[kv.1 := kv.2]> m) ∅ kvs.

(** [item] is no [Digest] challenge. *)
Definition not_digest (item : string) : Prop :=
  Py.startswith "digest " (Py.lower item) = false.

(** An environment whose clock reads 0.3 first and [late] from then on, and
    whose server answers every request with one challenge. *)
Definition boundary_challenge : list (string * string) :=
  [("realm", "testrealm@host.com"); ("qop", "auth");
   ("nonce", "dcd98b7102dd2f0e8b11d0f600bfb0c093")].
Definition boundary_env (late : float) : Env :=
  {| clock := λ n, match n with O => 0.3%float | _ => late end;
     uuid4 := uuid4 demo_env;
     server := λ _ _ _, Some {| status := 401;
                                www_authenticate := [challenge_text boundary_challenge] |};
     quote_uri := quote_uri demo_env;
     read_file := read_file demo_env; listdir := listdir demo_env; subs := subs demo_env;
     extrasubs_with := extrasubs_with demo_env; extrasubs_bytes := extrasubs_bytes demo_env;
     re_sub := re_sub demo_env; today := today demo_env;
     verifiers := verifiers demo_env; generators := generators demo_env;
     parse_xml := parse_xml demo_env; parseText := parseText demo_env;
     py_eval_int := py_eval_int demo_env |}.

(** The challenge cached from the first reading of that clock. *)
Definition boundary_entry : challenge :=
  {| params := dict_of boundary_challenge;
     max_nonce_time := PrimFloat.add 0.3%float 600%float |}.
Definition boundary_world : world :=
  set_digestCache (insert "Mufasa" boundary_entry)
    (set_clock_reads S (set_http_log (λ l, l ++ [("OPTIONS", "/dir/index.html")]) empty_world)).

(** A header dict all of whose values are [str] objects, as the loader of
    the test scripts builds it. *)
Definition str_headers (hs : list (string * string)) : list (string * text) :=
  (λ kv, (kv.1, Str kv.2)) <$> hs.

(** [d[k] = v] on such a dict. *)
Fixpoint header_set (k v : string) (hs : list (string * string)) : list (string * string) :=
  match hs with
  | [] => [(k, v)]
  | (k', v') :: rest =>
      if decide (k' = k) then (k, v) :: rest else (k', v') :: header_set k v rest
  end.

(** What the substitution loop of [getHeaders] makes of it. *)
Definition substituted_headers (E : Env) (d : gmap string string)
    (hs : list (string * string)) : list (string * string) :=
  (λ kv, (kv.1, extrasubs_with E d kv.2)) <$> hs.

(** The header dict after the substitution loop and the Content-Type
    assignment of [getHeaders]. *)
Definition prepared_headers (E : Env) (self : Request.request) (d : gmap string string)
    (hs : list (string * string)) : list (string * string) :=
  let hs := substituted_headers E d hs in
  match Request.data self with
  | Some body => header_set "Content-Type" (Data.content_type body) hs
  | None => hs
  end.

(** The world with [h] as the header dict of the request. *)
Definition stored (self : Request.request) (h : list (string * text)) (w : world) : world :=
  set_dicts (insert (Request.headers self) h) w.

Definition basic_si : serverinfo :=
  {| si_host := "localhost"; si_port := 8008; si_ssl := false; si_afunix := None;
     si_user := "alice"; si_pswd := "pass"; si_authtype := "Basic" |}.

Definition put_request : Request.request :=
  Request.set_data (Some demo_body) (demo_request "PUT").

Definition headers_world : world :=
  set_dicts (λ _, [ str_headers [("Depth", "$depth:")] ])
    (set_extrasubsdict (λ _, {[ "$depth:" := "1" ]}) empty_world).

(** Every list reference of [d] is allocated in [h]. *)
Definition valid_refs (d : gmap string nat) (h : list (list string)) : Prop :=
  ∀ k l, d !! k = Some l → (l < length h)%nat.

(** What [resolve_items] and [clone_items] append to the heap. *)
Definition appended (f : list string → list string) (items : list (string * nat))
    (h : list (list string)) : list (list string) :=
  (λ kl, f (default [] (h !! kl.2))) <$> items.

(** The references handed out for [items] on a heap of length [n]. *)
Definition rebound (items : list (string * nat)) (n : nat) : list (string * nat) :=
  zip (items.*1) (seq n (length items)).

(** The argument lists as the next invocation will see them: resolved
    against the extra substitutions when there are any. *)
Definition resolved (E : Env) (w : world) (stored : gmap string (list string))
  : gmap string (list string) :=
  if bool_decide (extrasubsdict w = ∅) then stored
  else (λ values : list string, extrasubs_with E (extrasubsdict w) <$> values) <$> stored.

(** The common course of [doVerify] and [doGenerate] once the plug-in is
    found. *)
Definition invoke {R} (E : Env) (a : nat) (p : plugin R) : M R :=
  resolve_args E a ≫= λ _, clone_args a ≫= call_plugin p.

(** [demo_env] with other XML and calendar parsers, and with other
    verifier plug-ins. *)
Definition with_parsers (px : string → Py.result (list (option string)))
    (pt : option string → parsed_calendar) (E : Env) : Env :=
  {| clock := clock E; uuid4 := uuid4 E; server := server E; quote_uri := quote_uri E;
     read_file := read_file E; listdir := listdir E; subs := subs E;
     extrasubs_with := extrasubs_with E; extrasubs_bytes := extrasubs_bytes E;
     re_sub := re_sub E; today := today E;
     verifiers := verifiers E; generators := generators E;
     parse_xml := px; parseText := Some pt; py_eval_int := py_eval_int E |}.

Definition with_verifiers
    (vs : string → option (string → response → string → plugin (bool * string)))
    (E : Env) : Env :=
  {| clock := clock E; uuid4 := uuid4 E; server := server E; quote_uri := quote_uri E;
     read_file := read_file E; listdir := listdir E; subs := subs E;
     extrasubs_with := extrasubs_with E; extrasubs_bytes := extrasubs_bytes E;
     re_sub := re_sub E; today := today E;
     verifiers := vs; generators := generators E;
     parse_xml := parse_xml E; parseText := parseText E; py_eval_int := py_eval_int E |}.

Definition ok_response : response := {| status := 200; www_authenticate := [] |}.

(** A response with one calendar-data element, a calendar with one
    VFREEBUSY component for user01 and no busy time. *)
Definition user01 : string := "mailto:user01@example.com".
Definition free_calendar : calendar :=
  {| vfreebusy_components := [ {| attendees := [user01]; freebusy := [] |} ];
     vevent_count := 0 |}.
Definition freebusy_env : Env :=
  with_parsers (λ _, Py.Ok [Some "BEGIN:VCALENDAR"]) (λ _, Parsed free_calendar) demo_env.

(** A scheduling response with one calendar-data element holding [data]. *)
Definition schedule_response (data : string) : string :=
  "<C:schedule-response xmlns:C='urn:ietf:params:xml:ns:caldav'>"
  +:+ "<C:response><C:calendar-data>" +:+ data +:+ "</C:calendar-data></C:response>"
  +:+ "</C:schedule-response>".

(** A response without any calendar-data element. *)
Definition empty_schedule_response : string :=
  "<C:schedule-response xmlns:C='urn:ietf:params:xml:ns:caldav'/>".

(** The text of [free_calendar]. *)
Definition free_calendar_text : string :=
  String.concat (String "010"%char "")
    ["BEGIN:VCALENDAR"; "VERSION:2.0"; "BEGIN:VFREEBUSY"; "ATTENDEE:" +:+ user01;
     "END:VFREEBUSY"; "END:VCALENDAR"; ""].

(** An XML parser that knows three bodies and refuses every other one, and
    a calendar parser that knows the text of [free_calendar] and takes every
    other text for invalid data. *)
Definition known_bodies (body : string) : Py.result (list (option string)) :=
  if decide (body = schedule_response "not a calendar") then Py.Ok [Some "not a calendar"]
  else if decide (body = schedule_response free_calendar_text)
       then Py.Ok [Some free_calendar_text]
  else if decide (body = empty_schedule_response) then Py.Ok []
  else Py.Raise Py.OtherException.
Definition known_calendars (text : option string) : parsed_calendar :=
  if decide (text = Some free_calendar_text) then Parsed free_calendar else InvalidData.

(** The verifier's environment with pycalendar imported, and without it. *)
Definition calendar_env : Env := with_parsers known_bodies known_calendars demo_env.
Definition bare_env : Env :=
  {| clock := clock demo_env; uuid4 := uuid4 demo_env; server := server demo_env;
     quote_uri := quote_uri demo_env;
     read_file := read_file demo_env; listdir := listdir demo_env; subs := subs demo_env;
     extrasubs_with := extrasubs_with demo_env; extrasubs_bytes := extrasubs_bytes demo_env;
     re_sub := re_sub demo_env; today := today demo_env;
     verifiers := verifiers demo_env; generators := generators demo_env;
     parse_xml := known_bodies; parseText := None;
     py_eval_int := py_eval_int demo_env |}.

(** A verifier invocation whose plug-in removes the attendee it found from
    the list it was handed. *)
Definition freebusy_verifier : Verify.verify :=
  {| Verify.require_features := ∅; Verify.exclude_features := ∅;
     Verify.callback := Some "postFreeBusy"; Verify.args := 0 |}.

Definition plugin_env : Env :=
  with_verifiers
    (λ name, if decide (name = "verifiers.postFreeBusy")
             then Some (PostFreeBusy.verify freebusy_env) else None)
    demo_env.

Definition plugin_world : world :=
  set_argdicts (λ _, [ {[ "attendee" := 0%nat; "busy" := 1%nat ]} ])
    (set_lists (λ _, [ [user01]; ["20160101T000000Z/20160101T010000Z"] ]) empty_world).

Definition gated_request (required excluded : gset string) : Request.request :=
  {| Request.auth := true; Request.user := ""; Request.pswd := "";
     Request.require_features := required; Request.exclude_features := excluded;
     Request.method := "GET"; Request.headers := 0; Request.ruri := "/";
     Request.data := None; Request.count := 1; Request.dataList := None |}.

Definition gated_suite (required excluded : gset string) : Testsuite.testsuite :=
  {| Testsuite.name := "suite"; Testsuite.ignore := false; Testsuite.only := false;
     Testsuite.changeuid := false; Testsuite.require_features := required;
     Testsuite.exclude_features := excluded |}.

(** [E] with another server. *)
Definition with_server (srv : nat → string → string → option response) (E : Env) : Env :=
  {| clock := clock E; uuid4 := uuid4 E; server := srv; quote_uri := quote_uri E;
     read_file := read_file E; listdir := listdir E; subs := subs E;
     extrasubs_with := extrasubs_with E; extrasubs_bytes := extrasubs_bytes E;
     re_sub := re_sub E; today := today E;
     verifiers := verifiers E; generators := generators E;
     parse_xml := parse_xml E; parseText := parseText E; py_eval_int := py_eval_int E |}.

(** A server that asks for no authentication. *)
Definition plain_env : Env :=
  with_server (λ _ _ _, Some {| status := 200; www_authenticate := [] |}) demo_env.

(** The hex form of a [bytes], two lower-case digits a byte, as
    [bytes.hex()] writes it. *)
Definition hex_dump (b : string) : string :=
  foldr (λ x acc, Py.hex_fixed 2 x +:+ acc) EmptyString (Py.bytes_of_string b).

(** * Properties *)

(** ** Feature gating *)

(** C8: [missingFeatures] is the set difference of the required features and
    the server's features and [excludedFeatures] the intersection of the
    excluded features with them, for a request and for a test suite alike;
    neither changes the state; missing({ctag}, {etag}) = {ctag} and
    excluded({ctag}, {ctag, etag}) = {ctag}. *)
Theorem feature_gate_sets :
  (∀ (r : Request.request) (w : world),
      (∃ s, Request.missingFeatures r w = (Py.Ok s, w)
            ∧ ∀ x, x ∈ s ↔ x ∈ Request.require_features r ∧ x ∉ features w)
      ∧ (∃ s, Request.excludedFeatures r w = (Py.Ok s, w)
              ∧ ∀ x, x ∈ s ↔ x ∈ Request.exclude_features r ∧ x ∈ features w))
  ∧ (∀ (t : Testsuite.testsuite) (w : world),
      (∃ s, Testsuite.missingFeatures t w = (Py.Ok s, w)
            ∧ ∀ x, x ∈ s ↔ x ∈ Testsuite.require_features t ∧ x ∉ features w)
      ∧ (∃ s, Testsuite.excludedFeatures t w = (Py.Ok s, w)
              ∧ ∀ x, x ∈ s ↔ x ∈ Testsuite.exclude_features t ∧ x ∈ features w))
  ∧ (∀ (r : Request.request) (t : Testsuite.testsuite) (w : world),
      Request.require_features r = {["ctag"]} →
      Testsuite.require_features t = {["ctag"]} →
      features w = {["etag"]} →
      Request.missingFeatures r w = (Py.Ok {["ctag"]}, w)
      ∧ Testsuite.missingFeatures t w = (Py.Ok {["ctag"]}, w))
  ∧ (∀ (r : Request.request) (t : Testsuite.testsuite) (w : world),
      Request.exclude_features r = {["ctag"]} →
      Testsuite.exclude_features t = {["ctag"]} →
      features w = {["ctag"; "etag"]} →
      Request.excludedFeatures r w = (Py.Ok {["ctag"]}, w)
      ∧ Testsuite.excludedFeatures t w = (Py.Ok {["ctag"]}, w)).
Proof.
  split; [|split; [|split]].
  - intros r w; split; (eexists; split; [reflexivity|]); intros x; set_solver.
  - intros t w; split; (eexists; split; [reflexivity|]); intros x; set_solver.
  - intros r t w Hr Ht Hw.
    unfold Request.missingFeatures, Testsuite.missingFeatures, gets.
    rewrite Hr, Ht, Hw.
    assert (({["ctag"]} : gset string) ∖ {["etag"]} = {["ctag"]}) as -> by set_solver.
    done.
  - intros r t w Hr Ht Hw.
    unfold Request.excludedFeatures, Testsuite.excludedFeatures, gets.
    rewrite Hr, Ht, Hw.
    assert (({["ctag"]} : gset string) ∩ {["ctag"; "etag"]} = {["ctag"]}) as -> by set_solver.
    done.
Qed.

(** ** Digest computation *)

Lemma append_assoc (a b c : string) : (a +:+ b) +:+ c = a +:+ (b +:+ c).
Proof. induction a as [|x a IH]; [reflexivity|]. exact (f_equal (String x) IH). Qed.

Lemma append_nil_l (a : string) : "" +:+ a = a.
Proof. reflexivity. Qed.

Lemma new_hash_supported (alg : string) (h : string → string) :
  algorithms alg = Some h → new_hash alg = Py.Ok {| hfun := h; hbuf := "" |}.
Proof. intros H. unfold new_hash. by rewrite H. Qed.

(** The names the table [algorithms] knows. *)
Lemma algorithms_supported (alg : string) :
  is_Some (algorithms alg) ↔ alg = "md5" ∨ alg = "md5-sess" ∨ alg = "sha".
Proof.
  unfold algorithms. split.
  - repeat case_decide; auto. by intros [? ?].
  - intros [-> | [-> | ->]]; by eexists.
Qed.

(** With a name of the table, [calcHA1] without a precomputed HA1 stops at
    its first [update], which is handed a [str]. *)
Lemma calcHA1_str_refused alg user realm password nonce cnonce :
  is_Some (algorithms alg) →
  calcHA1 alg user realm password nonce cnonce None = Py.Raise Py.TypeError.
Proof.
  intros [h H]. unfold calcHA1. cbn [Py.otruthy andb].
  by rewrite (new_hash_supported _ _ H).
Qed.

(** So does [calcResponse]. *)
Lemma calcResponse_str_refused HA1 alg nonce nc cnonce qop method uri hentity :
  is_Some (algorithms alg) →
  calcResponse HA1 alg nonce nc cnonce qop method uri hentity = Py.Raise Py.TypeError.
Proof.
  intros [h H]. unfold calcResponse. by rewrite (new_hash_supported _ _ H).
Qed.

(** C1: the claim does not hold of the code.  For every name of the table
    [algorithms] and all [str] inputs, [calcHA1] (without a precomputed HA1)
    and [calcResponse] raise [TypeError] at their first [update], which
    accepts bytes only, and return no digest; with a precomputed HA1, a
    [str], [calcHA1] raises [AttributeError] at [decode].  The hash objects
    themselves compute what the claim describes once they are fed bytes: the
    MD5 object gives the HA1 of the example of RFC 2617 for the bytes of
    [Mufasa:testrealm@host.com:Circle Of Life]. *)
Theorem digest_computation :
  (∀ alg user realm password nonce cnonce,
      is_Some (algorithms alg) →
      calcHA1 alg user realm password nonce cnonce None = Py.Raise Py.TypeError)
  ∧ (∀ HA1 alg nonce nc cnonce qop method uri hentity,
      is_Some (algorithms alg) →
      calcResponse HA1 alg nonce nc cnonce qop method uri hentity = Py.Raise Py.TypeError)
  ∧ (∀ alg nonce cnonce pre,
      calcHA1 alg "" None "" nonce cnonce (Some pre) = Py.Raise Py.AttributeError)
  ∧ (m ← new_hash "md5";
     m ← update m (Some (Bytes "Mufasa:testrealm@host.com:Circle Of Life"));
     Py.Ok (hex_dump (digest m)))
    = Py.Ok "939e7578ed9e3c518a452acee763bce9".
Proof.
  split; [|split; [|split]].
  - intros. by apply calcHA1_str_refused.
  - intros. by apply calcResponse_str_refused.
  - intros alg nonce cnonce pre. unfold calcHA1.
    by destruct pre as [|c pre].
  - vm_compute. reflexivity.
Qed.

(** The calls of the example of RFC 2617, section 3.5. *)
Lemma digest_computation_witness :
  calcHA1 "md5" "Mufasa" (Some "testrealm@host.com") "Circle Of Life"
    (Some "dcd98b7102dd2f0e8b11d0f600bfb0c093") (Some "0a4f113b") None
  = Py.Raise Py.TypeError
  ∧ calcResponse "939e7578ed9e3c518a452acee763bce9" "md5"
      (Some "dcd98b7102dd2f0e8b11d0f600bfb0c093") (Some "00000001") (Some "0a4f113b")
      (Some "auth") "GET" "/dir/index.html" None
    = Py.Raise Py.TypeError.
Proof.
  destruct digest_computation as (Hha1 & Hresp & _).
  assert (Hmd5 : is_Some (algorithms "md5")) by (by eexists).
  split.
  - exact (Hha1 "md5" _ _ _ _ _ Hmd5).
  - exact (Hresp _ "md5" _ _ _ _ _ _ _ Hmd5).
Defined.

(** ** An environment for the examples *)

Lemma demo_uuid4_inj (i j : nat) : uuid4 demo_env i = uuid4 demo_env j → i = j.
Proof.
  cbn. intros H. apply (inj (String.app "uuid-")) in H. by apply (inj pretty) in H.
Qed.

(** Unfolding of the state monad. *)
Ltac run :=
  cbv [mbind St_bind mret St_ret gets modify lift raise from_opt in_world
       time_time new_uuid http_request extrasubs addextrasubs hasextrasubs
       read_list alloc_list read_argdict read_dict write_dict] in *.

(** ** URI placeholders *)

(** C4 (amended): [getURI] first applies the extra substitutions.  If the
    result contains [**] and has no [?] or its first [?] after the first
    [**], every [**] is replaced by one newly drawn identifier, and two
    resolutions that draw one never use the same identifier, provided the
    identifier source never repeats.  If the result contains no [**] at
    all, contains [##] and has no [?] or its first [?] after the first
    [##], every [##] is replaced by the decimal repetition count.  In every
    other case the URI is returned as substituted: a [?] before the
    placeholder leaves it untouched, and a URI that contains [**] never has
    its [##] rewritten. *)
Theorem getURI_placeholders (E : Env) (self : Request.request) (w : world) :
  let uri := extrasubs_with E (extrasubsdict w) (Request.ruri self) in
  (Request.before_query "**" uri = true ↔
     Py.contains "?" uri = false ∨ Py.find "**" uri < Py.find "?" uri)
  ∧ (Py.contains "**" uri = true → Request.before_query "**" uri = true →
       Request.getURI E self w
       = (Py.Ok (Py.replace "**" (uuid4 E (uuid_draws w)) uri), set_uuid_draws S w))
  ∧ (Py.contains "**" uri = false → Py.contains "##" uri = true →
       Request.before_query "##" uri = true →
       Request.getURI E self w
       = (Py.Ok (Py.replace "##" (Py.str_of_int (Request.count self)) uri), w))
  ∧ (Py.contains "**" uri = true → Request.before_query "**" uri = false →
       Request.getURI E self w = (Py.Ok uri, w))
  ∧ (Py.contains "**" uri = false →
       Py.contains "##" uri = false ∨ Request.before_query "##" uri = false →
       Request.getURI E self w = (Py.Ok uri, w))
  ∧ (∀ (other : Request.request) (w' : world),
       (∀ i j, uuid4 E i = uuid4 E j → i = j) →
       (uuid_draws (snd (Request.getURI E self w)) ≤ uuid_draws w')%nat →
       Py.contains "**" uri = true → Request.before_query "**" uri = true →
       let uri' := extrasubs_with E (extrasubsdict w') (Request.ruri other) in
       Py.contains "**" uri' = true → Request.before_query "**" uri' = true →
       ∃ id id',
         fst (Request.getURI E self w) = Py.Ok (Py.replace "**" id uri)
         ∧ fst (Request.getURI E other w') = Py.Ok (Py.replace "**" id' uri')
         ∧ id ≠ id').
Proof.
  intros uri.
  assert (Hstep : Request.getURI E self w =
      if Py.contains "**" uri then
        if Request.before_query "**" uri
        then (Py.Ok (Py.replace "**" (uuid4 E (uuid_draws w)) uri), set_uuid_draws S w)
        else (Py.Ok uri, w)
      else if Py.contains "##" uri then
        if Request.before_query "##" uri
        then (Py.Ok (Py.replace "##" (Py.str_of_int (Request.count self)) uri), w)
        else (Py.Ok uri, w)
      else (Py.Ok uri, w)).
  { unfold Request.getURI. run. fold uri.
    repeat case_match; reflexivity. }
  split; [|split; [|split; [|split; [|split]]]].
  - unfold Request.before_query. rewrite orb_true_iff, negb_true_iff, Z.ltb_lt. tauto.
  - intros H1 H2. by rewrite Hstep, H1, H2.
  - intros H1 H2 H3. by rewrite Hstep, H1, H2, H3.
  - intros H1 H2. by rewrite Hstep, H1, H2.
  - intros H1 [H2|H2]; rewrite Hstep, H1.
    + by rewrite H2.
    + rewrite H2. by destruct (Py.contains "##" uri).
  - intros other w' Hinj Hle H1 H2 uri' H1' H2'.
    exists (uuid4 E (uuid_draws w)), (uuid4 E (uuid_draws w')).
    rewrite Hstep, H1, H2 in Hle |- *. cbn in Hle.
    split; [reflexivity|]. split.
    + unfold Request.getURI. run. fold uri'.
      by rewrite H1', H2'.
    + intros Heq. apply Hinj in Heq. lia.
Qed.

Lemma getURI_placeholders_witness :
  Request.getURI demo_env (set_ruri "/cal/**/x**" (new_request 0)) empty_world
  = (Py.Ok "/cal/uuid-0/xuuid-0", set_uuid_draws S empty_world)
  ∧ Request.getURI demo_env (set_ruri "/cal/##.ics?n=##" (new_request 0)) empty_world
    = (Py.Ok "/cal/1.ics?n=1", empty_world)
  ∧ Request.getURI demo_env (set_ruri "/cal/?id=**" (new_request 0)) empty_world
    = (Py.Ok "/cal/?id=**", empty_world)
  ∧ Request.getURI demo_env (set_ruri "/cal/?n=##" (new_request 0)) empty_world
    = (Py.Ok "/cal/?n=##", empty_world)
  ∧ ∃ id id',
      fst (Request.getURI demo_env (set_ruri "/cal/**/x**" (new_request 0)) empty_world)
      = Py.Ok (Py.replace "**" id "/cal/**/x**")
      ∧ fst (Request.getURI demo_env (set_ruri "/**" (new_request 0))
               (set_uuid_draws S empty_world))
        = Py.Ok (Py.replace "**" id' "/**")
      ∧ id ≠ id'.
Proof.
  split; [|split; [|split; [|split]]].
  - exact (proj1 (proj2 (getURI_placeholders demo_env
             (set_ruri "/cal/**/x**" (new_request 0)) empty_world)) eq_refl eq_refl).
  - exact (proj1 (proj2 (proj2 (getURI_placeholders demo_env
             (set_ruri "/cal/##.ics?n=##" (new_request 0)) empty_world)))
             eq_refl eq_refl eq_refl).
  - exact (proj1 (proj2 (proj2 (proj2 (getURI_placeholders demo_env
             (set_ruri "/cal/?id=**" (new_request 0)) empty_world))))
             eq_refl eq_refl).
  - exact (proj1 (proj2 (proj2 (proj2 (proj2 (getURI_placeholders demo_env
             (set_ruri "/cal/?n=##" (new_request 0)) empty_world)))))
             eq_refl (or_intror eq_refl)).
  - exact (proj2 (proj2 (proj2 (proj2 (proj2 (getURI_placeholders demo_env
             (set_ruri "/cal/**/x**" (new_request 0)) empty_world)))))
             (set_ruri "/**" (new_request 0)) (set_uuid_draws S empty_world)
             demo_uuid4_inj (le_n 1) eq_refl eq_refl eq_refl eq_refl).
Defined.

(** C4, as stated, fails: a URI with [##] before the query string and [**]
    inside it satisfies the claim's condition for rewriting [##], yet
    [getURI] returns it unchanged, because the [##] test is the [elif] of the
    [**] test. *)
Lemma getURI_count_placeholder_beside_uuid_placeholder :
  Py.contains "**" "/a/##/b?x=**" = true
  ∧ Request.before_query "**" "/a/##/b?x=**" = false
  ∧ Py.contains "##" "/a/##/b?x=**" = true
  ∧ Request.before_query "##" "/a/##/b?x=**" = true
  ∧ Py.replace "##" (Py.str_of_int 1) "/a/##/b?x=**" = "/a/1/b?x=**"
  ∧ Request.getURI demo_env (set_ruri "/a/##/b?x=**" (new_request 0)) empty_world
    = (Py.Ok "/a/##/b?x=**", empty_world).
Proof. repeat split; vm_compute; reflexivity. Qed.

(** ** Directory iteration *)

Lemma iterate_data_S E fuel s :
  iterate_data E (S fuel) s
  = match Request.getNextData E s with
    | (Py.Ok true, s') =>
        let '(paths, final) := iterate_data E fuel s' in
        ((Request.data (fst s') ≫= Data.nextpath) :: paths, final)
    | (Py.Ok false, s') => ([], Some s')
    | (Py.Raise _, _) => ([], None)
    end.
Proof. reflexivity. Qed.

Lemma getFilePath_advanced path rest body self w :
  Request.data self = Some body →
  Request.getFilePath (advanced path rest body self) w = Request.getFilePath self w.
Proof. intros H. unfold Request.getFilePath. cbn. by rewrite H. Qed.

Lemma getNextData_start E self w dir entries :
  Request.dataList self = None →
  Request.getFilePath self w = (Py.Ok dir, w) →
  listdir E dir = Some entries →
  Request.getNextData E (self, w)
  = Request.getNextData E
      (Request.set_dataList (Some (Request.sorted (Request.visible entries))) self, w).
Proof.
  intros Hl Hp Hd. unfold Request.getNextData, Request.list_directory. run.
  cbn [fst]. rewrite Hl, Hp, Hd. reflexivity.
Qed.

Lemma getNextData_step E self w body dir next rest :
  Request.dataList self = Some (next :: rest) →
  Request.data self = Some body →
  Request.getFilePath self w = (Py.Ok dir, w) →
  Request.getNextData E (self, w)
  = (Py.Ok true, (advanced (Py.path_join dir next) rest body self, w)).
Proof.
  intros Hl Hb Hp. unfold Request.getNextData. run.
  cbn [fst]. rewrite Hl. cbn [fst]. rewrite Hl, Hp, Hb. reflexivity.
Qed.

Lemma getNextData_end E self w :
  Request.dataList self = Some [] →
  Request.getNextData E (self, w) = (Py.Ok false, (exhausted self, w)).
Proof.
  intros Hl. unfold Request.getNextData. run.
  cbn [fst]. rewrite Hl. cbn [fst]. rewrite Hl. reflexivity.
Qed.

(** Draining a cursor that holds [files]. *)
Lemma iterate_data_cursor E w dir files :
  ∀ self body,
    Request.dataList self = Some files →
    Request.data self = Some body →
    Request.getFilePath self w = (Py.Ok dir, w) →
    iterate_data E (S (length files)) (self, w)
    = ((λ f, Some (Py.path_join dir f)) <$> files,
       Some (Request.set_dataList None
               (Request.set_data (Some (Data.set_nextpath None body)) self), w)).
Proof.
  induction files as [|next rest IH]; intros self body Hl Hb Hp.
  - rewrite iterate_data_S, (getNextData_end E self w Hl).
    unfold exhausted. by rewrite Hb.
  - cbn [length].
    rewrite iterate_data_S, (getNextData_step E self w body dir next rest Hl Hb Hp).
    rewrite (IH (advanced (Py.path_join dir next) rest body self)
               (Data.set_nextpath (Some (Py.path_join dir next)) body)); try done.
    by rewrite getFilePath_advanced.
Qed.

(** C6: starting without a cursor, on a request with a body whose fixture
    directory lists [entries], [getNextData] returns [True] once per
    non-hidden entry, pinning the next path to the entries in sorted order,
    each once, and then returns [False], leaving neither next path nor
    cursor; names starting with [.] are never pinned; a directory holding
    a.ics, b.ics and .hidden yields a.ics, then b.ics, then exhaustion;
    [hasNextData] says whether a non-hidden entry exists and changes
    nothing. *)
Theorem getNextData_iterates (E : Env) (self : Request.request) (w : world)
    (body : Data.data) (dir : string) (entries : list string) :
  Request.data self = Some body →
  Request.dataList self = None →
  Request.getFilePath self w = (Py.Ok dir, w) →
  listdir E dir = Some entries →
  let files := Request.sorted (Request.visible entries) in
  iterate_data E (S (length files)) (self, w)
  = ((λ f, Some (Py.path_join dir f)) <$> files,
     Some (Request.set_data (Some (Data.set_nextpath None body)) self, w))
  ∧ Sorted String.le files
  ∧ files ≡ₚ Request.visible entries
  ∧ (∀ f, f ∈ files ↔ f ∈ entries ∧ Py.startswith "." f = false)
  ∧ Request.hasNextData E (self, w) = (Py.Ok (negb (length files =? 0)%nat), (self, w))
  ∧ (Request.visible ["b.ics"; ".hidden"; "a.ics"] = ["b.ics"; "a.ics"]
     ∧ Request.sorted ["b.ics"; "a.ics"] = ["a.ics"; "b.ics"]).
Proof.
  intros Hb Hl Hp Hd files.
  split; [|split; [|split; [|split; [|split]]]].
  - rewrite iterate_data_S, (getNextData_start E self w dir entries Hl Hp Hd).
    fold files. rewrite <- iterate_data_S.
    rewrite (iterate_data_cursor E w dir files
               (Request.set_dataList (Some files) self) body); try done.
    destruct self; cbn in *. by subst.
  - apply Sorted_merge_sort. apply _.
  - apply merge_sort_Permutation.
  - intros f. unfold files, Request.sorted. rewrite merge_sort_Permutation.
    unfold Request.visible. rewrite !list_elem_of_In, filter_In, negb_true_iff. done.
  - unfold Request.hasNextData, Request.list_directory. run.
    cbn [fst]. rewrite Hp, Hd. reflexivity.
  - split; vm_compute; reflexivity.
Qed.

Lemma getNextData_iterates_witness :
  iterate_data demo_env 3
    (Request.set_data (Some demo_body) (new_request 0), set_data_dir "fixtures" empty_world)
  = ([Some "fixtures/events/a.ics"; Some "fixtures/events/b.ics"],
     Some (Request.set_data (Some demo_body) (new_request 0),
           set_data_dir "fixtures" empty_world))
  ∧ Request.hasNextData demo_env
      (Request.set_data (Some demo_body) (new_request 0), set_data_dir "fixtures" empty_world)
    = (Py.Ok true,
       (Request.set_data (Some demo_body) (new_request 0), set_data_dir "fixtures" empty_world)).
Proof.
  pose proof (getNextData_iterates demo_env
                (Request.set_data (Some demo_body) (new_request 0))
                (set_data_dir "fixtures" empty_world) demo_body "fixtures/events"
                ["b.ics"; ".hidden"; "a.ics"] eq_refl eq_refl eq_refl eq_refl)
    as (H1 & _ & _ & _ & H2 & _).
  split; [exact H1 | exact H2].
Defined.

(** ** Body resolution *)

(** C5 (amended): for a request with a body, [getData] takes the raw text
    from the literal value when it is non-empty; otherwise, when the body's
    file path is non-empty, from the file at the pinned next path if one is
    set and else at the body's own path under the data directory; otherwise
    the raw text is empty.  It applies the static substitutions, writes the
    entry [$request_count:] with the repetition count into the extra
    substitutions, applies the extra substitutions (the new entry included),
    then the body's own table when that is not empty, and hands the text to
    the calendar rewriting or the generator when one is configured.  Without
    a body it returns the empty string and leaves the extra substitutions as
    they are. *)
Theorem getData_steps (E : Env) (self : Request.request) (w : world) :
  (Request.data self = None → Request.getData E self w = (Py.Ok "", w))
  ∧ (∀ body raw,
       Request.data self = Some body →
       (Data.value body ≠ "" ∧ raw = Data.value body)
       ∨ (Data.value body = "" ∧ Data.filepath body ≠ ""
          ∧ ∃ path,
              match Data.nextpath body with
              | Some p => path = p
              | None => Request.getFilePath self w = (Py.Ok path, w)
              end
              ∧ read_file E path = Some raw)
       ∨ (Data.value body = "" ∧ Data.filepath body = "" ∧ raw = "") →
       Request.getData E self w
       = generated E self body
           (substituted E (extrasubsdict (counted self w)) body raw) (counted self w)
         ∧ extrasubsdict (counted self w) !! "$request_count:"
           = Some (Py.str_of_int (Request.count self))
         ∧ (∀ k, k ≠ "$request_count:" →
                 extrasubsdict (counted self w) !! k = extrasubsdict w !! k)
         ∧ (Data.generate body = false → Data.generator body = None →
            Request.getData E self w
            = (Py.Ok (substituted E (extrasubsdict (counted self w)) body raw),
               counted self w))).
Proof.
  split.
  - intros Hd. unfold Request.getData. by rewrite Hd.
  - intros body raw Hd Hraw.
    assert (Hmain : Request.getData E self w
                    = generated E self body
                        (substituted E (extrasubsdict (counted self w)) body raw)
                        (counted self w)).
    { unfold Request.getData, generated, substituted. rewrite Hd. run.
      assert (Hw : set_extrasubsdict
                     (λ d, {["$request_count:" := Py.str_of_int (Request.count self)]} ∪ d) w
                   = counted self w).
      { unfold counted, set_extrasubsdict. f_equal. by rewrite insert_union_singleton_l. }
      destruct Hraw as [[Hv ->] | [(Hv & Hf & path & Hpath & Hread) | (Hv & Hf & ->)]].
      - destruct (Data.value body) as [|c v] eqn:Hval; [done|].
        cbn [String.length Nat.eqb negb]. by rewrite Hw.
      - rewrite Hv. cbn [String.length Nat.eqb negb].
        destruct (Data.filepath body) as [|c f] eqn:Hfp; [done|]. cbn [Py.truthy].
        destruct (Data.nextpath body) as [p|] eqn:Hnp.
        + subst path. rewrite Hread. by rewrite Hw.
        + unfold Request.getFilePath in *. rewrite Hd in *. run. rewrite Hfp in *.
          injection Hpath as Hpath. rewrite Hpath, Hread. by rewrite Hw.
      - rewrite Hv, Hf. cbn [String.length Nat.eqb negb Py.truthy]. by rewrite Hw. }
    split; [exact Hmain|]. split; [|split].
    + unfold counted. cbn. by rewrite lookup_insert_eq.
    + intros k Hk. unfold counted. cbn. by rewrite lookup_insert_ne.
    + intros Hg Hgen. rewrite Hmain. unfold generated. by rewrite Hg, Hgen.
Qed.

Lemma getData_steps_witness :
  Request.getData demo_env (Request.set_data (Some (file_body "body.txt")) (new_request 0))
    demo_world
  = (Py.Ok "hello alice #1",
     counted (Request.set_data (Some (file_body "body.txt")) (new_request 0)) demo_world)
  ∧ Request.getData demo_env (new_request 0) demo_world = (Py.Ok "", demo_world).
Proof.
  split.
  - edestruct (proj2 (getData_steps demo_env
                  (Request.set_data (Some (file_body "body.txt")) (new_request 0)) demo_world)
                  (file_body "body.txt") "hello $name: #$request_count:" eq_refl)
      as (_ & _ & _ & H).
    { right; left. split; [reflexivity|]. split; [discriminate|].
      exists "fixtures/body.txt". split; reflexivity. }
    rewrite (H eq_refl eq_refl). reflexivity.
  - exact (proj1 (getData_steps demo_env (new_request 0) demo_world) eq_refl).
Defined.

(** C5, as stated, fails: a body with neither value nor file path, iterated
    over the data directory, has its next path pinned by [getNextData] to a
    readable file, yet [getData] reads nothing and returns the empty text. *)
Lemma getData_ignores_nextpath_without_filepath :
  Request.getNextData demo_env
    (Request.set_data (Some (file_body "")) (new_request 0), demo_world)
  = (Py.Ok true,
     (advanced "fixtures/body.txt" [] (file_body "")
        (Request.set_data (Some (file_body "")) (new_request 0)), demo_world))
  ∧ read_file demo_env "fixtures/body.txt" = Some "hello $name: #$request_count:"
  ∧ substituted demo_env
      (extrasubsdict (counted (new_request 0) demo_world)) (file_body "")
      "hello $name: #$request_count:" = "hello alice #1"
  ∧ fst (Request.getData demo_env
           (advanced "fixtures/body.txt" [] (file_body "")
              (Request.set_data (Some (file_body "")) (new_request 0))) demo_world)
    = Py.Ok "".
Proof. repeat split; vm_compute; reflexivity. Qed.

(** ** What a computation leaves unchanged *)

Section Preservation.
Context {X : Type} (f : world → X).

Lemma keeps_mret {A} (a : A) : keeps f (mret a).
Proof. intros w. reflexivity. Qed.

Lemma keeps_raise {A} (e : Py.exn) : keeps f (@raise world A e).
Proof. intros w. reflexivity. Qed.

Lemma keeps_lift {A} (r : Py.result A) : keeps f (lift r).
Proof. intros w. reflexivity. Qed.

Lemma keeps_gets {A} (g : world → A) : keeps f (gets g).
Proof. intros w. reflexivity. Qed.

Lemma keeps_from_opt {A} (e : Py.exn) (o : option A) : keeps f (from_opt e o).
Proof. intros w. by destruct o. Qed.

Lemma keeps_tail {A B} (m : M A) (k : A → M B) (w : world) :
  (∀ a, keeps f (k a)) → f (snd ((m ≫= k) w)) = f (snd (m w)).
Proof.
  intros Hk. unfold mbind, St_bind. destruct (m w) as [[a|e] w1]; [|reflexivity].
  apply Hk.
Qed.

Lemma keeps_mbind {A B} (m : M A) (k : A → M B) :
  keeps f m → (∀ a, keeps f (k a)) → keeps f (m ≫= k).
Proof. intros Hm Hk w. rewrite keeps_tail by done. apply Hm. Qed.

End Preservation.

Lemma bind_ok {S A B} (m : St S A) (k : A → St S B) (s s1 : S) (a : A) :
  m s = (Py.Ok a, s1) → (m ≫= k) s = k a s1.
Proof. intros H. unfold mbind, St_bind. by rewrite H. Qed.

Lemma bind_raise {S A B} (m : St S A) (k : A → St S B) (s s1 : S) (e : Py.exn) :
  m s = (Py.Raise e, s1) → (m ≫= k) s = (Py.Raise e, s1).
Proof. intros H. unfold mbind, St_bind. by rewrite H. Qed.

Ltac keeps_step :=
  first
    [ apply keeps_mret | apply keeps_raise | apply keeps_lift | apply keeps_gets
    | apply keeps_from_opt | apply keeps_mbind; [|intros ?]
    | (intros ?; reflexivity) ].
Ltac keeps_auto := repeat (first [ keeps_step | case_match ]).

Lemma getURI_keeps {X} (f : world → X) (E : Env) (self : Request.request) :
  (∀ g w, f (set_uuid_draws g w) = f w) → keeps f (Request.getURI E self).
Proof.
  intros Hf. unfold Request.getURI, extrasubs, new_uuid.
  keeps_auto; intros w; cbn; apply Hf.
Qed.

Lemma getURI_ok (E : Env) (self : Request.request) (w : world) :
  ∃ uri, fst (Request.getURI E self w) = Py.Ok uri.
Proof. unfold Request.getURI. run. repeat case_match; by eexists. Qed.

Lemma digest_header_keeps {X} (f : world → X) E self user pswd d :
  (∀ g w, f (set_uuid_draws g w) = f w) →
  keeps f (Request.digest_header E self user pswd d).
Proof.
  intros Hf. unfold Request.digest_header.
  repeat (first [ apply getURI_keeps; exact Hf | keeps_step | case_match ]).
Qed.

Lemma count_nonce_keeps {X} (f : world → X) user d :
  (∀ g w, f (set_nc g w) = f w) → (∀ g w, f (set_digestCache g w) = f w) →
  keeps f (Request.count_nonce user d).
Proof.
  intros Hn Hc w. unfold Request.count_nonce. run. cbn. by rewrite Hc, Hn.
Qed.

Lemma build_digest_keeps {X} (f : world → X) E self si d :
  (∀ g w, f (set_uuid_draws g w) = f w) →
  (∀ g w, f (set_nc g w) = f w) → (∀ g w, f (set_digestCache g w) = f w) →
  keeps f (Request.build_digest E self si d).
Proof.
  intros Hu Hn Hc. unfold Request.build_digest.
  apply keeps_mbind.
  - case_match; [by apply count_nonce_keeps | apply keeps_mret].
  - intros d'. by apply digest_header_keeps.
Qed.

Lemma harvest_keeps {X} (f : world → X) E user items :
  (∀ g w, f (set_clock_reads g w) = f w) → (∀ g w, f (set_digestCache g w) = f w) →
  keeps f (Request.harvest E user items).
Proof.
  intros Ht Hc. induction items as [|item rest IH]; cbn [Request.harvest].
  - apply keeps_mret.
  - case_match; [exact IH|].
    apply keeps_mbind; [apply keeps_lift|]. intros d.
    apply keeps_mbind; [intros w; apply Ht|]. intros t.
    apply keeps_mbind; [intros w; apply Hc|]. intros _. apply keeps_mret.
Qed.

(** ** The digest challenge cache *)

Lemma get_details_young E self si w d :
  digestCache w !! Request.or_default (Request.user self) (si_user si) = Some d →
  Request.gt (max_nonce_time d) (clock E (clock_reads w)) = true →
  Request.get_details E self si w = (Py.Ok (Some d), set_clock_reads S w).
Proof.
  intros Hd Hlt. unfold Request.get_details. run. by rewrite Hd, Hlt.
Qed.

Lemma probe_log E self w :
  ∃ uri, http_log (snd (Request.probe E self w))
         = http_log w ++ [("OPTIONS", quote_uri E uri)].
Proof.
  unfold Request.probe.
  destruct (Request.getURI E self w) as [r w1] eqn:Hu.
  pose proof (getURI_ok E self w) as [uri Hok]. rewrite Hu in Hok. cbn in Hok. subst r.
  pose proof (getURI_keeps http_log E self (λ _ _, eq_refl) w) as Hlog.
  rewrite Hu in Hlog. cbn in Hlog.
  exists uri. rewrite (bind_ok _ _ _ _ _ Hu). unfold http_request.
  destruct (server E _ _ _); cbn; by rewrite Hlog.
Qed.

Lemma probe_keeps {X} (f : world → X) E self :
  (∀ g w, f (set_uuid_draws g w) = f w) → (∀ g w, f (set_http_log g w) = f w) →
  keeps f (Request.probe E self).
Proof.
  intros Hu Hl. unfold Request.probe.
  apply keeps_mbind; [by apply getURI_keeps|]. intros uri w.
  unfold http_request. destruct (server E _ _ _); cbn; apply Hl.
Qed.

Lemma after_probe_keeps {X} (f : world → X) E user resp :
  (∀ g w, f (set_clock_reads g w) = f w) → (∀ g w, f (set_digestCache g w) = f w) →
  keeps f (after_probe E user resp).
Proof.
  intros Ht Hc. unfold after_probe. case_match; [by apply harvest_keeps | apply keeps_mret].
Qed.

Lemma get_details_stale E self si w :
  let user := Request.or_default (Request.user self) (si_user si) in
  digestCache w !! user = None
  ∨ (∃ d, digestCache w !! user = Some d
          ∧ Request.gt (max_nonce_time d) (clock E (clock_reads w)) = false) →
  Request.get_details E self si w
  = (Request.probe E self ≫= after_probe E user) (probing user w).
Proof.
  intros user [Hnone | (d & Hd & Hle)]; unfold Request.get_details, probing; run;
    fold user.
  - by rewrite Hnone.
  - by rewrite Hd, Hle.
Qed.

Lemma harvest_stamp E user items w d w1 :
  Request.harvest E user items w = (Py.Ok (Some d), w1) →
  max_nonce_time d = PrimFloat.add (clock E (clock_reads w)) 600%float
  ∧ clock_reads w1 = S (clock_reads w)
  ∧ digestCache w1 !! user = Some d.
Proof.
  induction items as [|item rest IH]; cbn [Request.harvest]; [done|].
  case_match; [exact IH|]. run.
  destruct (Request.parse_parts _ _) as [ps|e]; [|done].
  intros [= <- <-]. cbn. by rewrite lookup_insert_eq.
Qed.

(** *** Parsing a challenge *)

Lemma contains_char_cons (c a : ascii) (s : string) :
  Py.contains (String c "") (String a s)
  = bool_decide (c = a) || Py.contains (String c "") s.
Proof.
  cbn [Py.contains Py.startswith]. case_decide; [by rewrite bool_decide_true|].
  by rewrite bool_decide_false.
Qed.

Lemma append_nil_r (a : string) : a +:+ "" = a.
Proof. induction a as [|c a IH]; [done|]. exact (f_equal (String c) IH). Qed.

Lemma app_cons (c : ascii) (a b : string) : String c a +:+ b = String c (a +:+ b).
Proof. reflexivity. Qed.

Lemma contains_char_app (c : ascii) (a b : string) :
  Py.contains (String c "") (a +:+ b)
  = Py.contains (String c "") a || Py.contains (String c "") b.
Proof.
  induction a as [|x a IH]; [done|].
  by rewrite app_cons, !contains_char_cons, IH, orb_assoc.
Qed.

Lemma rev_app_append (a b s : string) :
  String.rev_app a b +:+ s = String.rev_app a (b +:+ s).
Proof. revert b. induction a as [|c a IH]; intros b; [done|]. cbn. by rewrite IH. Qed.

Lemma rev_cons_append (c : ascii) (cur s : string) :
  String.rev (String c cur) +:+ s = String.rev cur +:+ String c s.
Proof. unfold String.rev. cbn. by rewrite !rev_app_append. Qed.

Lemma rev_app_distr (a b c : string) :
  String.rev_app (a +:+ b) c = String.rev_app b (String.rev_app a c).
Proof. revert c. induction a as [|x a IH]; intros c; [done|]. rewrite app_cons. cbn. apply IH. Qed.

Lemma rev_append (a b : string) : String.rev (a +:+ b) = String.rev b +:+ String.rev a.
Proof. unfold String.rev. by rewrite rev_app_distr, rev_app_append. Qed.

Lemma rev_involutive (s : string) : String.rev (String.rev s) = s.
Proof.
  induction s as [|c s IH]; [done|].
  change (String c s) with (String c "" +:+ s) at 1.
  by rewrite rev_append, rev_append, IH.
Qed.

Lemma rstrip_closed (a : string) (q : ascii) :
  Py.isspace q = false → Py.rstrip (a +:+ String q "") = a +:+ String q "".
Proof.
  intros Hq. unfold Py.rstrip. rewrite rev_append.
  change (String.rev (String q "")) with (String q ""). rewrite app_cons, append_nil_l.
  cbn [Py.lstrip]. rewrite Hq.
  change (String q (String.rev a)) with (String q "" +:+ String.rev a).
  by rewrite rev_append, rev_involutive.
Qed.

Lemma last_char_app (a : string) (q : ascii) : Py.last_char (a +:+ String q "") = Some q.
Proof.
  induction a as [|c a IH]; [done|]. rewrite app_cons. cbn [Py.last_char].
  rewrite IH. by destruct a.
Qed.

Lemma drop_last_app (a : string) (q : ascii) : Py.drop_last (a +:+ String q "") = a.
Proof.
  induction a as [|c a IH]; [done|]. rewrite app_cons. cbn [Py.drop_last].
  rewrite IH. by destruct a.
Qed.

Lemma unq_quoted (v : string) : Request.unq (Py.dq +:+ v +:+ Py.dq) = Py.Ok v.
Proof.
  unfold Py.dq at 1. rewrite app_cons, append_nil_l. unfold Request.unq.
  change (String (ascii_of_N 34) (v +:+ Py.dq))
    with ((String (ascii_of_N 34) v) +:+ String (ascii_of_N 34) "").
  rewrite last_char_app, !bool_decide_true by done. cbn [andb].
  rewrite app_cons. cbn [Py.drop_prefix]. by rewrite drop_last_app.
Qed.

Lemma strip_quoted (v : string) : Py.strip (Py.dq +:+ v +:+ Py.dq) = Py.dq +:+ v +:+ Py.dq.
Proof.
  unfold Py.strip. unfold Py.dq at 1. rewrite app_cons, append_nil_l.
  cbn [Py.lstrip]. change (Py.isspace (ascii_of_N 34)) with false. cbn match.
  change (String (ascii_of_N 34) (v +:+ Py.dq))
    with ((String (ascii_of_N 34) v) +:+ String (ascii_of_N 34) "").
  by apply rstrip_closed.
Qed.

Lemma strip_after_space (k : string) : Py.strip (" " +:+ k) = Py.strip k.
Proof. reflexivity. Qed.

Lemma split1_go_at (sep : ascii) (s1 s2 cur : string) :
  Py.contains (String sep "") s1 = false →
  Py.split1_go sep cur (s1 +:+ String sep s2) = [String.rev cur +:+ s1; s2].
Proof.
  revert cur. induction s1 as [|c s1 IH]; intros cur Hs.
  - rewrite append_nil_l. cbn [Py.split1_go]. rewrite decide_True by done.
    by rewrite append_nil_r.
  - rewrite contains_char_cons in Hs. apply orb_false_iff in Hs as [Hc Hs].
    apply bool_decide_eq_false in Hc. rewrite app_cons. cbn [Py.split1_go].
    rewrite decide_False by congruence. rewrite IH by done.
    by rewrite rev_cons_append.
Qed.

Lemma split_go_without (sep : ascii) (s cur : string) :
  Py.contains (String sep "") s = false →
  Py.split_go sep cur s = [String.rev cur +:+ s].
Proof.
  revert cur. induction s as [|c s IH]; intros cur Hs.
  - cbn. by rewrite append_nil_r.
  - rewrite contains_char_cons in Hs. apply orb_false_iff in Hs as [Hc Hs].
    apply bool_decide_eq_false in Hc. cbn [Py.split_go].
    rewrite decide_False by congruence. rewrite IH by done.
    by rewrite rev_cons_append.
Qed.

Lemma split_go_at (sep : ascii) (s1 s2 cur : string) :
  Py.contains (String sep "") s1 = false →
  Py.split_go sep cur (s1 +:+ String sep s2)
  = (String.rev cur +:+ s1) :: Py.split_go sep "" s2.
Proof.
  revert cur. induction s1 as [|c s1 IH]; intros cur Hs.
  - rewrite append_nil_l. cbn [Py.split_go]. rewrite decide_True by done.
    by rewrite append_nil_r.
  - rewrite contains_char_cons in Hs. apply orb_false_iff in Hs as [Hc Hs].
    apply bool_decide_eq_false in Hc. rewrite app_cons. cbn [Py.split_go].
    rewrite decide_False by congruence. rewrite IH by done.
    by rewrite rev_cons_append.
Qed.

Lemma split_joined (ps : list string) :
  ∀ p cur,
    Forall (λ x, Py.contains "," x = false) (p :: ps) →
    Py.split_go "," cur (String.concat ", " (p :: ps))
    = (String.rev cur +:+ p) :: ((λ x, " " +:+ x) <$> ps).
Proof.
  induction ps as [|q ps IH]; intros p cur Hall.
  - apply split_go_without. by inversion Hall.
  - inversion Hall as [|? ? Hp Hrest]; subst.
    change (String.concat ", " (p :: q :: ps))
      with (p +:+ String "," (String " " (String.concat ", " (q :: ps)))).
    rewrite split_go_at by done. f_equal.
    cbn [Py.split_go]. rewrite decide_False by done.
    rewrite IH by done. reflexivity.
Qed.

Lemma quoted_pair_no_comma (kv : string * string) :
  plain_parameter kv → Py.contains "," (quoted_pair kv) = false.
Proof.
  intros (Hk & _ & _ & Hv). unfold quoted_pair.
  by rewrite !contains_char_app, Hk, Hv.
Qed.

Lemma parse_quoted_pair (kv : string * string) (pre : string) (rest : list string)
    (details : gmap string string) :
  plain_parameter kv → pre = "" ∨ pre = " " →
  Request.parse_parts ((pre +:+ quoted_pair kv) :: rest) details
  = Request.parse_parts rest (<[kv.1 := kv.2]> details).
Proof.
  intros (_ & Hk & Hs & _) Hpre. cbn [Request.parse_parts]. unfold Py.split1, quoted_pair.
  assert (Hsplit : Py.split1_go "=" "" (pre +:+ kv.1 +:+ "=" +:+ Py.dq +:+ kv.2 +:+ Py.dq)
                   = [pre +:+ kv.1; Py.dq +:+ kv.2 +:+ Py.dq]).
  { change ("=" +:+ ?x) with (String "="%char x). rewrite <- append_assoc.
    rewrite split1_go_at; [done|].
    rewrite contains_char_app, Hk. by destruct Hpre as [-> | ->]. }
  rewrite Hsplit, strip_quoted, unq_quoted. cbn [mbind Py.result_bind].
  destruct Hpre as [-> | ->]; [by rewrite append_nil_l, Hs|].
  by rewrite strip_after_space, Hs.
Qed.

Lemma parse_quoted_pairs (kvs : list (string * string)) :
  ∀ details,
    Forall plain_parameter kvs →
    Request.parse_parts ((λ kv, " " +:+ quoted_pair kv) <$> kvs) details
    = Py.Ok (foldl (λ m kv, <[kv.1 := kv.2]> m) details kvs).
Proof.
  induction kvs as [|kv kvs IH]; intros details Hall; [done|].
  inversion Hall; subst. cbn [fmap list_fmap foldl].
  rewrite parse_quoted_pair by auto. by apply IH.
Qed.

Lemma harvest_skip E user skipped items w :
  Forall not_digest skipped →
  Request.harvest E user (skipped ++ items) w = Request.harvest E user items w.
Proof.
  induction 1 as [|item skipped Hitem _ IH]; [done|].
  cbn [app Request.harvest]. unfold not_digest in Hitem. by rewrite Hitem.
Qed.

Lemma harvest_well_formed (E : Env) (user : string)
    (kvs : list (string * string)) (rest : list string) (w : world) :
  kvs ≠ [] →
  Forall plain_parameter kvs →
  let d := {| params := delete "max-nonce-time" (dict_of kvs);
              max_nonce_time := PrimFloat.add (clock E (clock_reads w)) 600%float |} in
  Request.harvest E user (challenge_text kvs :: rest) w
  = (Py.Ok (Some d), set_digestCache (insert user d) (set_clock_reads S w)).
Proof.
  intros Hne Hall d. cbn [Request.harvest].
  assert (Hd : Py.startswith "digest " (Py.lower (challenge_text kvs)) = true) by done.
  rewrite Hd. cbn [negb].
  assert (Hparts : Py.split "," (Py.drop_prefix 7 (challenge_text kvs))
                   = match kvs with
                     | [] => [""]
                     | kv :: kvs' => quoted_pair kv :: ((λ kv, " " +:+ quoted_pair kv) <$> kvs')
                     end).
  { destruct kvs as [|kv kvs']; [done|].
    change (Py.drop_prefix 7 (challenge_text (kv :: kvs')))
      with (String.concat ", " (quoted_pair <$> kv :: kvs')).
    unfold Py.split. rewrite fmap_cons, split_joined.
    - by rewrite append_nil_l, <- list_fmap_compose.
    - rewrite <- fmap_cons. apply Forall_fmap. eapply Forall_impl; [exact Hall|].
      intros kv0. apply quoted_pair_no_comma. }
  rewrite Hparts. destruct kvs as [|kv kvs']; [done|].
  inversion Hall; subst.
  rewrite <- (append_nil_l (quoted_pair kv)), parse_quoted_pair by auto.
  rewrite parse_quoted_pairs by done.
  reflexivity.
Qed.

(** C3: [gethttpdigestauth] takes the cached challenge of the user, and
    sends no request, exactly when the cache has an entry for the user
    whose max-nonce-time is strictly greater than the current time, both
    binary64 numbers; otherwise, the entry being absent or its
    max-nonce-time not greater than the current time, it first sends one
    OPTIONS probe.  A challenge harvested from the probe is cached with
    max-nonce-time equal to the binary64 sum of the time read at capture and
    600; and when the probe is answered with status 401 and the first
    [Digest] value among its WWW-Authenticate headers is written
    [Digest k1="v1", k2="v2", ...], that challenge is harvested: it is the
    dict of these parameters, stamped and cached under the user. *)
Theorem digest_cache_reuse (E : Env) (self : Request.request) (si : serverinfo) (w : world) :
  let user := Request.or_default (Request.user self) (si_user si) in
  let now := clock E (clock_reads w) in
  let after := snd (Request.gethttpdigestauth E self si w) in
  let absent_or_stale :=
    digestCache w !! user = None
    ∨ (∃ d, digestCache w !! user = Some d ∧ Request.gt (max_nonce_time d) now = false) in
  (∀ d, digestCache w !! user = Some d → Request.gt (max_nonce_time d) now = true →
        Request.get_details E self si w = (Py.Ok (Some d), set_clock_reads S w)
        ∧ http_log after = http_log w)
  ∧ (absent_or_stale →
     (∃ uri, http_log after = http_log w ++ [("OPTIONS", quote_uri E uri)])
     ∧ ∀ d w1, Request.get_details E self si w = (Py.Ok (Some d), w1) →
               max_nonce_time d
               = PrimFloat.add (clock E (Nat.pred (clock_reads w1))) 600%float
               ∧ digestCache w1 !! user = Some d)
  ∧ (http_log after = http_log w ↔
     ∃ d, digestCache w !! user = Some d ∧ Request.gt (max_nonce_time d) now = true)
  ∧ (absent_or_stale →
     ∀ uri w1 resp skipped kvs rest,
       Request.getURI E self (probing user w) = (Py.Ok uri, w1) →
       server E (length (http_log w1)) "OPTIONS" (quote_uri E uri) = Some resp →
       status resp = 401 →
       www_authenticate resp = skipped ++ challenge_text kvs :: rest →
       Forall not_digest skipped →
       kvs ≠ [] →
       Forall plain_parameter kvs →
       let d := {| params := delete "max-nonce-time" (dict_of kvs);
                   max_nonce_time
                   := PrimFloat.add (clock E (clock_reads (probing user w))) 600%float |} in
       Request.get_details E self si w
       = (Py.Ok (Some d),
          set_digestCache (insert user d)
            (set_clock_reads S
               (set_http_log (λ l, l ++ [("OPTIONS", quote_uri E uri)]) w1)))).
Proof.
  intros user now after absent_or_stale.
  assert (Htail : http_log after = http_log (snd (Request.get_details E self si w))).
  { unfold after, Request.gethttpdigestauth. apply keeps_tail.
    intros [d|]; [by apply build_digest_keeps | apply keeps_mret]. }
  assert (Hyoung : ∀ d, digestCache w !! user = Some d →
            Request.gt (max_nonce_time d) now = true →
            Request.get_details E self si w = (Py.Ok (Some d), set_clock_reads S w)
            ∧ http_log after = http_log w).
  { intros d Hd Hlt. pose proof (get_details_young E self si w d Hd Hlt) as Hg.
    split; [exact Hg|]. by rewrite Htail, Hg. }
  assert (Hstale : absent_or_stale →
     (∃ uri, http_log after = http_log w ++ [("OPTIONS", quote_uri E uri)])
     ∧ ∀ d w1, Request.get_details E self si w = (Py.Ok (Some d), w1) →
               max_nonce_time d
               = PrimFloat.add (clock E (Nat.pred (clock_reads w1))) 600%float
               ∧ digestCache w1 !! user = Some d).
  { intros Hs. pose proof (get_details_stale E self si w Hs) as Hg. fold user in Hg.
    split.
    - rewrite Htail, Hg.
      rewrite keeps_tail by (intros resp; by apply after_probe_keeps).
      destruct (probe_log E self (probing user w)) as [uri Hlog]. exists uri. rewrite Hlog.
      unfold probing. by destruct (digestCache w !! user).
    - intros d w1. rewrite Hg. unfold mbind, St_bind.
      pose proof (probe_keeps clock_reads E self (λ _ _, eq_refl) (λ _ _, eq_refl)
                    (probing user w)) as Hc.
      destruct (Request.probe E self (probing user w)) as [[resp|e] wp]; [|done].
      cbn in Hc. unfold after_probe. case_match; [|done].
      intros Hh. apply harvest_stamp in Hh as (Hm & Hr & Hd).
      rewrite Hr, Hm, Hc. done. }
  split; [exact Hyoung|]. split; [exact Hstale|]. split; [split|].
  - intros Hlog.
    destruct (digestCache w !! user) as [d|] eqn:Hd.
    + destruct (Request.gt (max_nonce_time d) now) eqn:Hgt; [by eauto|].
      destruct Hstale as [[uri Hu] _]; [right; eauto|].
      rewrite Hu in Hlog. apply (f_equal length) in Hlog.
      rewrite length_app in Hlog. cbn in Hlog. lia.
    + destruct Hstale as [[uri Hu] _]; [by left|].
      rewrite Hu in Hlog. apply (f_equal length) in Hlog.
      rewrite length_app in Hlog. cbn in Hlog. lia.
  - intros (d & Hd & Hlt). by apply (Hyoung d).
  - intros Hs uri w1 resp skipped kvs rest Huri Hsrv Hst Hitems Hskip Hne Hall d.
    pose proof (getURI_keeps clock_reads E self (λ _ _, eq_refl) (probing user w)) as Hc.
    rewrite Huri in Hc. cbn [snd] in Hc.
    rewrite (get_details_stale E self si w Hs). fold user.
    unfold Request.probe. cbv [mbind St_bind mret St_ret]. rewrite Huri.
    unfold http_request. rewrite Hsrv. unfold after_probe. rewrite Hst.
    cbn [Z.eqb Pos.eqb]. rewrite Hitems, (harvest_skip _ _ _ _ _ Hskip).
    rewrite harvest_well_formed by done.
    cbn [clock_reads set_http_log]. by rewrite Hc.
Qed.

(** ** The nonce count *)

Lemma with_count_params n d :
  params (with_count n d) !! "nc" = Some (Py.format_08x n)
  ∧ params (with_count n d) !! "qop" = params d !! "qop"
  ∧ params (with_count n d) !! "nonce" = params d !! "nonce"
  ∧ max_nonce_time (with_count n d) = max_nonce_time d.
Proof.
  unfold with_count. case_match; cbn; repeat split; by simplify_map_eq.
Qed.

Lemma count_nonce_spec user d w :
  let nonce := params d !! "nonce" in
  let n := default 0 (nc w !! nonce) + 1 in
  Request.count_nonce user d w
  = (Py.Ok (with_count n d),
     set_digestCache (insert user (with_count n d)) (set_nc (insert nonce n) w)).
Proof.
  intros nonce n. unfold Request.count_nonce. run. cbn. fold nonce.
  assert (Hup : match nc w !! nonce with
                | Some c => <[nonce := c + 1]> (nc w)
                | None => <[nonce := 1]> (nc w)
                end = <[nonce := n]> (nc w)).
  { unfold n. by destruct (nc w !! nonce). }
  unfold set_digestCache, set_nc. cbn. rewrite Hup, lookup_insert_eq. reflexivity.
Qed.

Lemma get_details_keeps {X} (f : world → X) E self si :
  (∀ g w, f (set_uuid_draws g w) = f w) → (∀ g w, f (set_http_log g w) = f w) →
  (∀ g w, f (set_clock_reads g w) = f w) → (∀ g w, f (set_digestCache g w) = f w) →
  keeps f (Request.get_details E self si).
Proof.
  intros Hu Hl Ht Hc. unfold Request.get_details.
  apply keeps_mbind; [apply keeps_gets|]. intros cache.
  assert (Hp : keeps f (Request.probe E self ≫= λ resp : response,
                 if status resp =? 401
                 then Request.harvest E (Request.or_default (Request.user self) (si_user si))
                        (www_authenticate resp)
                 else mret None)).
  { apply keeps_mbind; [by apply probe_keeps|]. intros resp.
    case_match; [by apply harvest_keeps | apply keeps_mret]. }
  case_match; [|exact Hp].
  apply keeps_mbind; [intros w; apply Ht|]. intros now.
  case_match; [apply keeps_mret | exact Hp].
Qed.

Lemma hex_fixed_length (k : nat) (n : Z) : String.length (Py.hex_fixed k n) = k.
Proof.
  revert n. induction k as [|k IH]; intros n; [reflexivity|].
  cbn [Py.hex_fixed].
  assert (Hlen : ∀ a b, String.length (a +:+ b) = (String.length a + String.length b)%nat).
  { intros a b. induction a as [|c a IHa]; [reflexivity|]. cbn. by rewrite <- IHa. }
  rewrite Hlen, IH. cbn. lia.
Qed.

Lemma format_08x_length (n : Z) :
  0 ≤ n < 2 ^ 32 → String.length (Py.format_08x n) = 8%nat.
Proof.
  intros [Hn Hlt]. unfold Py.format_08x.
  destruct (n <? 0) eqn:Hneg; [apply Z.ltb_lt in Hneg; lia|].
  rewrite hex_fixed_length. unfold Py.hex_digits_count.
  assert (Z.log2 n / 4 < 8).
  { apply Z.div_lt_upper_bound; [lia|].
    destruct (decide (n = 0)) as [->|Hnz]; [cbn; lia|].
    apply Z.log2_lt_pow2; lia. }
  assert (0 ≤ Z.log2 n / 4) by (apply Z.div_pos; [apply Z.log2_nonneg | lia]).
  lia.
Qed.

Lemma with_count_algorithm n d :
  params (with_count n d) !! "algorithm" = params d !! "algorithm".
Proof. unfold with_count. case_match; cbn; by simplify_map_eq. Qed.

(** [calcHA1] as [gethttpdigestauth] calls it returns no digest. *)
Lemma calcHA1_fails alg user realm password nonce cnonce :
  calcHA1 alg user realm password nonce cnonce None = Py.Raise (digest_failure alg).
Proof.
  unfold digest_failure. destruct (algorithms alg) as [h|] eqn:Halg.
  - apply calcHA1_str_refused. by eexists.
  - unfold calcHA1, new_hash. cbn [Py.otruthy andb]. by rewrite Halg.
Qed.

Lemma digest_header_fails E self user pswd d w :
  Request.digest_header E self user pswd d w
  = (Py.Raise (digest_failure (default "md5" (params d !! "algorithm"))), w).
Proof. unfold Request.digest_header. run. by rewrite calcHA1_fails. Qed.

Lemma build_digest_fails E self si d w :
  fst (Request.build_digest E self si d w)
  = Py.Raise (digest_failure (default "md5" (params d !! "algorithm"))).
Proof.
  unfold Request.build_digest. case_match.
  - pose proof (count_nonce_spec (Request.or_default (Request.user self) (si_user si)) d w)
      as Hc. cbn zeta in Hc.
    rewrite (bind_ok _ _ _ _ _ Hc), digest_header_fails. cbn [fst].
    by rewrite with_count_algorithm.
  - unfold mbind, St_bind, mret, St_ret. by rewrite digest_header_fails.
Qed.

(** One authenticated request on a challenge with qop. *)
Lemma nonce_count_step E self si w d w1 :
  Request.get_details E self si w = (Py.Ok (Some d), w1) →
  Py.otruthy (params d !! "qop") = true →
  let nonce := params d !! "nonce" in
  let n := default 0 (nc w !! nonce) + 1 in
  let user := Request.or_default (Request.user self) (si_user si) in
  Request.gethttpdigestauth E self si w
  = (Py.Raise (digest_failure (default "md5" (params d !! "algorithm"))),
     set_digestCache (insert user (with_count n d)) (set_nc (insert nonce n) w1))
  ∧ nc w1 = nc w.
Proof.
  intros Hg Hq nonce n user.
  pose proof (get_details_keeps nc E self si (λ _ _, eq_refl) (λ _ _, eq_refl)
                (λ _ _, eq_refl) (λ _ _, eq_refl) w) as Hnc.
  rewrite Hg in Hnc. cbn in Hnc. split; [|exact Hnc].
  unfold Request.gethttpdigestauth. rewrite (bind_ok _ _ _ _ _ Hg).
  unfold Request.build_digest. rewrite Hq.
  pose proof (count_nonce_spec user d w1) as Hc. cbn zeta in Hc.
  rewrite Hnc in Hc. fold nonce n in Hc. fold user.
  by rewrite (bind_ok _ _ _ _ _ Hc), digest_header_fails, with_count_algorithm.
Qed.

(** C2: the claim does not hold of the code.  When [gethttpdigestauth] has
    a challenge whose qop is set, the entry of the class-wide table [nc] for
    the challenge's nonce goes up by one, to 1 when the nonce had none,
    whichever request and user asked, and the new count is written as
    ["%08x"], eight characters while the count is below 2^32, into the [nc]
    field of the cached challenge; a second call on the same nonce writes
    the next count.  But no header carries it: the call then raises in
    [calcHA1], [TypeError] when the challenge's algorithm is in the table
    [algorithms] and [KeyError] otherwise. *)
Theorem nonce_count_increments (E : Env) (self : Request.request) (si : serverinfo)
    (w : world) (d : challenge) (w1 : world) :
  Request.get_details E self si w = (Py.Ok (Some d), w1) →
  Py.otruthy (params d !! "qop") = true →
  let nonce := params d !! "nonce" in
  let n := default 0 (nc w !! nonce) + 1 in
  let r := Request.gethttpdigestauth E self si w in
  nc (snd r) = <[nonce := n]> (nc w)
  ∧ (nc w !! nonce = None → nc (snd r) !! nonce = Some 1)
  ∧ (∃ c, digestCache (snd r) !! Request.or_default (Request.user self) (si_user si) = Some c
          ∧ params c !! "nc" = Some (Py.format_08x n))
  ∧ (0 ≤ n < 2 ^ 32 → String.length (Py.format_08x n) = 8%nat)
  ∧ fst r = Py.Raise (digest_failure (default "md5" (params d !! "algorithm")))
  ∧ (∀ self2 si2 d2 w2,
       Request.get_details E self2 si2 (snd r) = (Py.Ok (Some d2), w2) →
       Py.otruthy (params d2 !! "qop") = true →
       params d2 !! "nonce" = nonce →
       let r2 := Request.gethttpdigestauth E self2 si2 (snd r) in
       nc (snd r2) !! nonce = Some (n + 1)
       ∧ (∃ c, digestCache (snd r2) !! Request.or_default (Request.user self2) (si_user si2)
               = Some c
               ∧ params c !! "nc" = Some (Py.format_08x (n + 1)))
       ∧ fst r2 = Py.Raise (digest_failure (default "md5" (params d2 !! "algorithm"))))
  ∧ Py.format_08x 1 = "00000001" ∧ Py.format_08x 2 = "00000002".
Proof.
  intros Hg Hq nonce n r.
  destruct (nonce_count_step E self si w d w1 Hg Hq) as (Hr & Hnc).
  fold nonce n r in Hr.
  assert (Hnc' : nc (snd r) = <[nonce := n]> (nc w)).
  { rewrite Hr. cbn. by rewrite Hnc. }
  split; [exact Hnc'|]. split; [|split; [|split; [|split; [|split]]]].
  - intros Hnone. rewrite Hnc', lookup_insert_eq. unfold n. by rewrite Hnone.
  - exists (with_count n d). rewrite Hr. cbn. rewrite lookup_insert_eq.
    split; [done|]. apply with_count_params.
  - apply format_08x_length.
  - by rewrite Hr.
  - intros self2 si2 d2 w2 Hg2 Hq2 Hn2 r2.
    destruct (nonce_count_step E self2 si2 (snd r) d2 w2 Hg2 Hq2) as (Hr2 & Hnc2).
    fold r2 in Hr2. rewrite Hn2 in Hr2.
    rewrite Hnc', lookup_insert_eq in Hr2. cbn [default] in Hr2.
    split; [|split].
    + rewrite Hr2. cbn. by rewrite lookup_insert_eq.
    + exists (with_count (n + 1) d2). rewrite Hr2. cbn. rewrite lookup_insert_eq.
      split; [done|]. apply with_count_params.
    + by rewrite Hr2.
  - split; reflexivity.
Qed.

(** Two requests of different users against the server of [demo_env]. *)
Lemma nonce_count_increments_witness :
  nc (snd demo_first) = {[ demo_nonce := 1 ]}
  ∧ nc (snd demo_second) !! demo_nonce = Some 2
  ∧ (∃ c, digestCache (snd demo_first) !! "Mufasa" = Some c
          ∧ params c !! "nc" = Some "00000001")
  ∧ (∃ c, digestCache (snd demo_second) !! "Simba" = Some c
          ∧ params c !! "nc" = Some "00000002")
  ∧ fst demo_first = Py.Raise Py.TypeError
  ∧ fst demo_second = Py.Raise Py.TypeError.
Proof.
  edestruct (nonce_count_increments demo_env (demo_request "GET") (demo_si "Mufasa")
               empty_world) as (H1 & _ & H3 & _ & H5 & H6 & _).
  { vm_compute. reflexivity. }
  { vm_compute. reflexivity. }
  edestruct (H6 (demo_request "PUT") (demo_si "Simba")) as (H7 & H8 & H9).
  { vm_compute. reflexivity. }
  { vm_compute. reflexivity. }
  { vm_compute. reflexivity. }
  split; [|split; [|split; [|split; [|split]]]].
  - unfold demo_first. rewrite H1. vm_compute. reflexivity.
  - unfold demo_second, demo_first. exact H7.
  - exact H3.
  - exact H8.
  - exact H5.
  - exact H9.
Defined.

(** A challenge captured at 0.3 s is stamped 0.3 + 600, which is 600.3 in
    binary64: at 600.3 s the entry is no longer used and a probe goes out,
    at 600.2 s it is used and none does. *)
Lemma digest_cache_reuse_witness :
  Request.get_details (boundary_env 600.3) (demo_request "GET") (demo_si "Mufasa") empty_world
  = (Py.Ok (Some boundary_entry), boundary_world)
  ∧ (∃ uri,
       http_log (snd (Request.gethttpdigestauth (boundary_env 600.3) (demo_request "GET")
                        (demo_si "Mufasa") boundary_world))
       = http_log boundary_world ++ [("OPTIONS", quote_uri (boundary_env 600.3) uri)])
  ∧ http_log (snd (Request.gethttpdigestauth (boundary_env 600.2) (demo_request "GET")
                     (demo_si "Mufasa") boundary_world))
    = http_log boundary_world.
Proof.
  split; [|split].
  - pose proof (proj2 (proj2 (proj2 (digest_cache_reuse (boundary_env 600.3)
                                       (demo_request "GET") (demo_si "Mufasa")
                                       empty_world)))) as H.
    cbv zeta in H.
    assert (Hall : Forall plain_parameter boundary_challenge).
    { repeat apply Forall_cons_2; [..|apply Forall_nil_2];
        (repeat split; vm_compute; reflexivity). }
    rewrite (H (or_introl eq_refl) "/dir/index.html" empty_world
               {| status := 401; www_authenticate := [challenge_text boundary_challenge] |}
               [] boundary_challenge [] eq_refl eq_refl eq_refl eq_refl
               (Forall_nil_2 _) ltac:(discriminate) Hall).
    vm_compute. reflexivity.
  - edestruct (proj1 (proj2 (digest_cache_reuse (boundary_env 600.3) (demo_request "GET")
                               (demo_si "Mufasa") boundary_world))) as [H _].
    { right. exists boundary_entry. split; vm_compute; reflexivity. }
    exact H.
  - edestruct (proj1 (digest_cache_reuse (boundary_env 600.2) (demo_request "GET")
                        (demo_si "Mufasa") boundary_world)) as [_ H].
    { vm_compute. reflexivity. }
    { vm_compute. reflexivity. }
    exact H.
Defined.

(** ** The header dict *)

Lemma gethttpdigestauth_keeps {X} (f : world → X) E self si :
  (∀ g w, f (set_uuid_draws g w) = f w) → (∀ g w, f (set_http_log g w) = f w) →
  (∀ g w, f (set_clock_reads g w) = f w) → (∀ g w, f (set_digestCache g w) = f w) →
  (∀ g w, f (set_nc g w) = f w) →
  keeps f (Request.gethttpdigestauth E self si).
Proof.
  intros Hu Hl Ht Hc Hn. unfold Request.gethttpdigestauth.
  apply keeps_mbind; [by apply get_details_keeps|].
  intros [d|]; [by apply build_digest_keeps | apply keeps_mret].
Qed.

Lemma list_alter_lookup {A} (f : A → A) (l : list A) (i : nat) (x : A) :
  l !! i = Some x → alter f i l = <[i := f x]> l.
Proof.
  revert i. induction l as [|y l IH]; intros [|i] Hi; try done.
  - cbn in Hi. by injection Hi as ->.
  - cbn in *. f_equal. by apply IH.
Qed.

Lemma write_dict_stored self f h w :
  dicts w !! Request.headers self = Some h →
  write_dict (Request.headers self) f w = (Py.Ok tt, stored self (f h) w).
Proof.
  intros Hh. unfold write_dict, modify, stored, set_dicts.
  by rewrite (list_alter_lookup _ _ _ _ Hh).
Qed.

Lemma stored_stored self h h' w : stored self h' (stored self h w) = stored self h' w.
Proof. unfold stored, set_dicts. cbn. by rewrite list_insert_insert_eq. Qed.

Lemma stored_lookup self h h0 w :
  dicts w !! Request.headers self = Some h0 →
  dicts (stored self h w) !! Request.headers self = Some h.
Proof.
  intros Hh. cbn. apply list_lookup_insert_eq. by eapply lookup_lt_Some.
Qed.

Lemma stored_same self h w : dicts w !! Request.headers self = Some h → stored self h w = w.
Proof.
  intros Hh. unfold stored, set_dicts. rewrite (list_insert_id _ _ _ Hh). by destruct w.
Qed.

Lemma dict_set_middle (k : string) (v v' : text) (front rest : list (string * text)) :
  k ∉ front.*1 → dict_set k v' (front ++ (k, v) :: rest) = front ++ (k, v') :: rest.
Proof.
  induction front as [|[k0 v0] front IH]; intros Hk; cbn.
  - by rewrite decide_True.
  - rewrite fmap_cons, not_elem_of_cons in Hk. destruct Hk as [Hne Hk]. cbn in Hne.
    rewrite decide_False by done. by rewrite IH.
Qed.

Lemma str_headers_set (k v : string) (hs : list (string * string)) :
  str_headers (header_set k v hs) = dict_set k (Str v) (str_headers hs).
Proof.
  induction hs as [|[k0 v0] hs IH]; [done|].
  cbn [header_set str_headers fmap list_fmap dict_set fst snd].
  case_decide; [done|]. cbn [str_headers fmap list_fmap fst snd].
  f_equal. exact IH.
Qed.

Lemma header_set_keys (k v : string) (hs : list (string * string)) :
  NoDup hs.*1 → NoDup (header_set k v hs).*1
  ∧ ∀ x, x ∈ (header_set k v hs).*1 → x = k ∨ x ∈ hs.*1.
Proof.
  induction hs as [|[k0 v0] hs IH]; intros Hnd.
  - cbn. split; [apply NoDup_singleton|]. intros x Hx. left. by apply list_elem_of_singleton.
  - cbn in Hnd. apply NoDup_cons in Hnd as [Hk0 Hnd]. cbn. case_decide as Heq.
    + subst k0. cbn. split; [by apply NoDup_cons|]. intros x Hx.
      apply elem_of_cons in Hx as [->|Hx]; [by left|]. right. by right.
    + destruct (IH Hnd) as [Hnd' Hin]. cbn. split.
      * apply NoDup_cons. split; [|done]. intros Hx. by destruct (Hin _ Hx).
      * intros x Hx. apply elem_of_cons in Hx as [->|Hx]; [right; by left|].
        destruct (Hin _ Hx); [by left|]. right. by right.
Qed.

Lemma prepared_headers_keys E self d hs :
  NoDup hs.*1 → NoDup (prepared_headers E self d hs).*1.
Proof.
  intros Hnd. unfold prepared_headers.
  assert (Hs : NoDup (substituted_headers E d hs).*1).
  { unfold substituted_headers. by rewrite <- list_fmap_compose. }
  destruct (Request.data self); [by apply header_set_keys | done].
Qed.

(** One round of the substitution loop, on an entry whose value is a
    [str]. *)
Lemma resolve_headers_step E self front k s rest items w :
  dicts w !! Request.headers self = Some (front ++ (k, Str s) :: rest) →
  k ∉ front.*1 →
  Request.resolve_headers E (Request.headers self) ((k, Str s) :: items) w
  = Request.resolve_headers E (Request.headers self) items
      (stored self (front ++ (k, Str (extrasubs_with E (extrasubsdict w) s)) :: rest) w).
Proof.
  intros Hh Hk. cbn [Request.resolve_headers Request.extrasubs_text].
  unfold extrasubs. cbv [mbind St_bind mret St_ret gets].
  rewrite (write_dict_stored _ _ _ _ Hh). by rewrite dict_set_middle.
Qed.

Lemma resolve_headers_str E self hs :
  ∀ front w,
    dicts w !! Request.headers self = Some (front ++ str_headers hs) →
    NoDup (front.*1 ++ hs.*1) →
    Request.resolve_headers E (Request.headers self) (str_headers hs) w
    = (Py.Ok tt,
       stored self (front ++ str_headers (substituted_headers E (extrasubsdict w) hs)) w).
Proof.
  induction hs as [|[k s] hs IH]; intros front w Hh Hnd.
  - change (str_headers (substituted_headers E (extrasubsdict w) []))
      with (str_headers []).
    by rewrite (stored_same _ _ _ Hh).
  - cbn [str_headers fmap list_fmap fst snd] in *.
    apply NoDup_app in Hnd as Hnd'. destruct Hnd' as (_ & Hdisj & _).
    rewrite (resolve_headers_step E self front k s (str_headers hs)); [|done|]; last first.
    { intros Hin. apply (Hdisj _ Hin). by left. }
    rewrite (IH (front ++ [(k, Str (extrasubs_with E (extrasubsdict w) s))])).
    + rewrite stored_stored. cbn [extrasubsdict stored set_dicts].
      by rewrite <- app_assoc.
    + rewrite <- app_assoc. by eapply stored_lookup.
    + by rewrite fmap_app, <- app_assoc.
Qed.

(** The loop stops at the first [bytes] value that [extrasubs] refuses. *)
Lemma resolve_headers_bytes E self k b e post pre :
  ∀ front w,
    dicts w !! Request.headers self = Some (front ++ str_headers pre ++ (k, Bytes b) :: post) →
    NoDup (front.*1 ++ pre.*1) →
    extrasubs_bytes E (extrasubsdict w) b = Py.Raise e →
    fst (Request.resolve_headers E (Request.headers self)
           (str_headers pre ++ (k, Bytes b) :: post) w) = Py.Raise e.
Proof.
  induction pre as [|[k0 s] pre IH]; intros front w Hh Hnd He.
  - cbn [str_headers fmap list_fmap app Request.resolve_headers Request.extrasubs_text].
    cbv [mbind St_bind mret St_ret gets lift]. by rewrite He.
  - cbn [str_headers fmap list_fmap fst snd app] in *.
    apply NoDup_app in Hnd as Hnd'. destruct Hnd' as (_ & Hdisj & _).
    rewrite (resolve_headers_step E self front k0 s
               (str_headers pre ++ (k, Bytes b) :: post)); [|done|]; last first.
    { intros Hin. apply (Hdisj _ Hin). by left. }
    apply (IH (front ++ [(k0, Str (extrasubs_with E (extrasubsdict w) s))])).
    + rewrite <- app_assoc. by eapply stored_lookup.
    + by rewrite fmap_app, <- app_assoc.
    + exact He.
Qed.

(** Where [d[k] = v] puts the entry in a dict of [str] values. *)
Lemma dict_set_split (k : string) (v : text) (hs : list (string * string)) :
  ∃ pre suf post, hs = pre ++ suf ∧ dict_set k v (str_headers hs) = str_headers pre ++ (k, v) :: post.
Proof.
  induction hs as [|[k0 v0] hs (pre & suf & post & Hhs & Hset)].
  - by exists [], [], [].
  - cbn [str_headers fmap list_fmap dict_set fst snd]. case_decide.
    + by exists [], ((k0, v0) :: hs), (str_headers hs).
    + exists ((k0, v0) :: pre), suf, post. split; [by rewrite Hhs|].
      cbn [str_headers fmap list_fmap fst snd app]. f_equal. exact Hset.
Qed.

(** [getHeaders] up to the authorization: the loop and the Content-Type
    assignment leave [prepared_headers] in the stored dict. *)
Lemma getHeaders_unfold E self si w hs :
  dicts w !! Request.headers self = Some (str_headers hs) →
  NoDup hs.*1 →
  let wp := stored self (str_headers (prepared_headers E self (extrasubsdict w) hs)) w in
  Request.getHeaders E self si w
  = ((if Request.auth self then
        if decide (Py.lower (si_authtype si) = "basic") then
          write_dict (Request.headers self)
            (dict_set "Authorization" (Request.gethttpbasicauth self si))
        else if decide (Py.lower (si_authtype si) = "digest") then
          v ← Request.gethttpdigestauth E self si;
          write_dict (Request.headers self) (dict_set "Authorization" (Str v))
        else mret tt
      else mret tt) ≫= λ _, mret (Request.headers self)) wp
  ∧ dicts wp !! Request.headers self
    = Some (str_headers (prepared_headers E self (extrasubsdict w) hs))
  ∧ extrasubsdict wp = extrasubsdict w.
Proof.
  intros Hh Hnd wp. split; [|split; [by eapply stored_lookup | done]].
  unfold Request.getHeaders.
  assert (Hread : read_dict (Request.headers self) w = (Py.Ok (str_headers hs), w)).
  { unfold read_dict, gets. by rewrite Hh. }
  rewrite (bind_ok _ _ _ _ _ Hread).
  pose proof (resolve_headers_str E self hs [] w Hh Hnd) as Hres.
  cbn [app] in Hres.
  rewrite (bind_ok _ _ _ _ _ Hres).
  assert (Hct : match Request.data self with
                | Some body =>
                    write_dict (Request.headers self)
                      (dict_set "Content-Type" (Str (Data.content_type body)))
                | None => mret tt
                end (stored self (str_headers (substituted_headers E (extrasubsdict w) hs)) w)
                = (Py.Ok tt, wp)).
  { unfold wp, prepared_headers. destruct (Request.data self) as [body|]; [|done].
    rewrite (write_dict_stored self _ (str_headers (substituted_headers E (extrasubsdict w) hs)))
      by (by eapply stored_lookup).
    by rewrite stored_stored, str_headers_set. }
  by rewrite (bind_ok _ _ _ _ _ Hct).
Qed.

(** C9: the claim does not hold of the code as a whole.  For a header dict
    of [str] values, [getHeaders] returns the reference held in
    [self.headers], and the dict behind it then holds the values after the
    extra substitutions and the Content-Type of the body.  Without an
    authorization to add, a second call substitutes the stored values once
    more.  With basic authentication the Authorization entry is stored, as
    a [bytes]; the second call hands that value to [extrasubs] and ends with
    the exception [extrasubs] raises on it.  With digest authentication and a
    challenge the call raises in [calcHA1] and stores no Authorization
    entry; without a challenge the entry stored is the empty string. *)
Theorem getHeaders_returns_stored_dict (E : Env) (self : Request.request)
    (si : serverinfo) (w : world) (hs : list (string * string)) :
  dicts w !! Request.headers self = Some (str_headers hs) →
  NoDup hs.*1 →
  let d := extrasubsdict w in
  let h1 := prepared_headers E self d hs in
  let wp := stored self (str_headers h1) w in
  (Request.auth self = false
   ∨ (Py.lower (si_authtype si) ≠ "basic" ∧ Py.lower (si_authtype si) ≠ "digest") →
   Request.getHeaders E self si w = (Py.Ok (Request.headers self), wp)
   ∧ Request.getHeaders E self si wp
     = (Py.Ok (Request.headers self),
        stored self (str_headers (prepared_headers E self d h1)) w))
  ∧ (Request.auth self = true → Py.lower (si_authtype si) = "basic" →
     let h2 := dict_set "Authorization" (Request.gethttpbasicauth self si)
                 (str_headers h1) in
     Request.getHeaders E self si w = (Py.Ok (Request.headers self), stored self h2 w)
     ∧ ∃ b, Request.gethttpbasicauth self si = Bytes b
            ∧ ∀ e, extrasubs_bytes E d b = Py.Raise e →
                   fst (Request.getHeaders E self si (stored self h2 w)) = Py.Raise e)
  ∧ (Request.auth self = true → Py.lower (si_authtype si) = "digest" →
     (∀ c w1, Request.get_details E self si wp = (Py.Ok (Some c), w1) →
        fst (Request.getHeaders E self si w)
        = Py.Raise (digest_failure (default "md5" (params c !! "algorithm")))
        ∧ dicts (snd (Request.getHeaders E self si w)) = dicts wp)
     ∧ (∀ w1, Request.get_details E self si wp = (Py.Ok None, w1) →
        Request.getHeaders E self si w
        = (Py.Ok (Request.headers self),
           stored self (dict_set "Authorization" (Str "") (str_headers h1)) w1))).
Proof.
  intros Hh Hnd d h1 wp.
  destruct (getHeaders_unfold E self si w hs Hh Hnd) as (Hrun & Hp & Hd).
  fold d h1 wp in Hrun, Hp, Hd.
  assert (Hnd1 : NoDup h1.*1) by (by apply prepared_headers_keys).
  assert (Hss : ∀ h', stored self h' wp = stored self h' w)
    by (intros h'; apply stored_stored).
  split; [|split].
  - intros Hcase. split.
    + rewrite Hrun. destruct Hcase as [Hauth | [Hb Hdg]].
      * by rewrite Hauth.
      * rewrite !decide_False by done. by destruct (Request.auth self).
    + destruct (getHeaders_unfold E self si wp h1 Hp Hnd1) as (Hrun2 & _ & _).
      rewrite Hrun2, Hd, Hss. destruct Hcase as [Hauth | [Hb Hdg]].
      * by rewrite Hauth.
      * rewrite !decide_False by done. by destruct (Request.auth self).
  - intros Hauth Hb h2. split.
    + rewrite Hrun, Hauth, decide_True by done.
      cbv [mbind St_bind mret St_ret].
      by rewrite (write_dict_stored self _ _ _ Hp), Hss.
    + assert (Hv : ∃ b, Request.gethttpbasicauth self si = Bytes b) by (by eexists).
      destruct Hv as [b Hv]. exists b. split; [exact Hv|].
      intros e He. unfold Request.getHeaders.
      assert (Hh2 : dicts (stored self h2 w) !! Request.headers self = Some h2)
        by (by eapply stored_lookup).
      assert (Hread : read_dict (Request.headers self) (stored self h2 w)
                      = (Py.Ok h2, stored self h2 w)).
      { unfold read_dict, gets. by rewrite Hh2. }
      rewrite (bind_ok _ _ _ _ _ Hread).
      destruct (dict_set_split "Authorization" (Bytes b) h1)
        as (pre & suf & post & Hsplit & Hset).
      assert (Heq : h2 = str_headers pre ++ ("Authorization", Bytes b) :: post).
      { unfold h2. by rewrite Hv. }
      pose proof (resolve_headers_bytes E self "Authorization" b e post pre []
                    (stored self h2 w)) as Hres.
      cbn [app] in Hres. rewrite <- Heq in Hres.
      specialize (Hres Hh2).
      assert (Hpre : NoDup (([] : list (string * text)).*1 ++ pre.*1)).
      { cbn. rewrite Hsplit, fmap_app in Hnd1. by apply NoDup_app in Hnd1 as (? & _). }
      specialize (Hres Hpre He).
      unfold mbind, St_bind.
      destruct (Request.resolve_headers E (Request.headers self) h2 (stored self h2 w))
        as [[[]|e'] w2]; cbn in Hres; [done|]. by injection Hres as ->.
  - intros Hauth Hdg.
    assert (Hnb : Py.lower (si_authtype si) ≠ "basic") by (by rewrite Hdg).
    rewrite Hauth in Hrun. rewrite decide_False in Hrun by exact Hnb.
    rewrite decide_True in Hrun by exact Hdg.
    pose proof (gethttpdigestauth_keeps dicts E self si (λ _ _, eq_refl) (λ _ _, eq_refl)
                  (λ _ _, eq_refl) (λ _ _, eq_refl) (λ _ _, eq_refl) wp) as Hkeep.
    split.
    + intros c w1 Hg.
      assert (Hda : ∃ w2, Request.gethttpdigestauth E self si wp
                          = (Py.Raise (digest_failure (default "md5" (params c !! "algorithm"))),
                             w2)
                          ∧ dicts w2 = dicts wp).
      { unfold Request.gethttpdigestauth in *.
        rewrite (bind_ok _ _ _ _ _ Hg) in Hkeep. rewrite (bind_ok _ _ _ _ _ Hg).
        pose proof (build_digest_fails E self si c w1) as Hf.
        destruct (Request.build_digest E self si c w1) as [[v|e] w2]; cbn in Hf; [done|].
        injection Hf as ->. by exists w2. }
      destruct Hda as (w2 & Hda & Hw2).
      rewrite Hrun. unfold mbind, St_bind. by rewrite Hda.
    + intros w1 Hg.
      assert (Hda : Request.gethttpdigestauth E self si wp = (Py.Ok "", w1)).
      { unfold Request.gethttpdigestauth. by rewrite (bind_ok _ _ _ _ _ Hg). }
      rewrite Hda in Hkeep. cbn [snd] in Hkeep.
      assert (Hw1 : dicts w1 !! Request.headers self = Some (str_headers h1))
        by (by rewrite Hkeep).
      rewrite Hrun. unfold mbind, St_bind. rewrite Hda.
      by rewrite (write_dict_stored self _ _ _ Hw1).
Qed.

(** A PUT with basic authentication, called twice. *)
Lemma getHeaders_returns_stored_dict_witness :
  Request.getHeaders demo_env put_request basic_si headers_world
  = (Py.Ok (Request.headers put_request),
     stored put_request
       [("Depth", Str "1"); ("Content-Type", Str "text/calendar");
        ("Authorization", Bytes "Basic YWxpY2U6cGFzcw==")]
       headers_world)
  ∧ fst (Request.getHeaders demo_env put_request basic_si
           (stored put_request
              [("Depth", Str "1"); ("Content-Type", Str "text/calendar");
               ("Authorization", Bytes "Basic YWxpY2U6cGFzcw==")]
              headers_world))
    = Py.Raise Py.TypeError.
Proof.
  pose proof (getHeaders_returns_stored_dict demo_env put_request basic_si headers_world
                [("Depth", "$depth:")]) as H.
  assert (H1 : dicts headers_world !! Request.headers put_request
               = Some (str_headers [("Depth", "$depth:")])) by reflexivity.
  assert (H2 : NoDup [("Depth", "$depth:")].*1) by (apply NoDup_singleton).
  specialize (H H1 H2). cbv zeta in H. destruct H as (_ & H & _).
  assert (H3 : Py.lower (si_authtype basic_si) = "basic") by reflexivity.
  specialize (H eq_refl H3). destruct H as [Ha Hb].
  assert (Hval : dict_set "Authorization" (Request.gethttpbasicauth put_request basic_si)
                   (str_headers (prepared_headers demo_env put_request
                                   (extrasubsdict headers_world) [("Depth", "$depth:")]))
                 = [("Depth", Str "1"); ("Content-Type", Str "text/calendar");
                    ("Authorization", Bytes "Basic YWxpY2U6cGFzcw==")])
    by (vm_compute; reflexivity).
  rewrite Hval in Ha, Hb.
  split; [exact Ha|]. destruct Hb as (b & Hb1 & Hb2). apply Hb2. reflexivity.
Defined.

(** ** Plug-in arguments *)

Lemma contents_lookup (d : gmap string nat) (h : list (list string)) (k : string) :
  contents d h !! k = (λ l, default [] (h !! l)) <$> d !! k.
Proof. unfold contents. by rewrite lookup_fmap. Qed.

Lemma contents_app (d : gmap string nat) (h ext : list (list string)) :
  valid_refs d h → contents d (h ++ ext) = contents d h.
Proof.
  intros Hv. apply map_eq. intros k. rewrite !contents_lookup.
  destruct (d !! k) as [l|] eqn:Hk; [|done]. cbn.
  by rewrite lookup_app_l by (by eapply Hv).
Qed.

Lemma resolve_items_run E a items :
  ∀ w,
    (∀ k l, (k, l) ∈ items → (l < length (lists w))%nat) →
    resolve_items E a items w
    = (Py.Ok tt,
       set_argdicts
         (alter (λ d, foldl (λ d kl, <[kl.1 := kl.2]> d) d (rebound items (length (lists w)))) a)
         (set_lists (λ h, h ++ appended (fmap (extrasubs_with E (extrasubsdict w))) items h) w)).
Proof.
  induction items as [|[k l] rest IH]; intros w Hv.
  - cbn. unfold set_argdicts, set_lists, appended. cbn.
    rewrite app_nil_r, list_alter_id by done. by destruct w.
  - cbn [resolve_items]. run. cbn [fst snd].
    rewrite IH.
    + unfold set_argdicts, set_lists, appended, rebound. cbn.
      rewrite list_alter_alter_eq. rewrite length_app. cbn [length].
      replace (length (lists w) + 1)%nat with (S (length (lists w))) by lia.
      f_equal. f_equal. rewrite <- app_assoc. cbn. f_equal. f_equal.
      apply list_fmap_ext. intros i [k' l'] Hi. cbn.
      assert ((k', l') ∈ rest) as Hin by (by eapply list_elem_of_lookup_2).
      rewrite lookup_app_l; [done|]. apply (Hv k' l'). by right.
    + intros k' l' Hin. cbn. rewrite length_app. cbn.
      assert (l' < length (lists w))%nat by (apply (Hv k' l'); by right). lia.
Qed.

Lemma clone_items_run items :
  ∀ w,
    (∀ k l, (k, l) ∈ items → (l < length (lists w))%nat) →
    clone_items items w
    = (Py.Ok (list_to_map (rebound items (length (lists w)))),
       set_lists (λ h, h ++ appended (λ v, v) items h) w).
Proof.
  induction items as [|[k l] rest IH]; intros w Hv.
  - cbn. unfold set_lists, appended. cbn. rewrite app_nil_r. by destruct w.
  - cbn [clone_items]. run. cbn [fst snd].
    rewrite IH.
    + unfold set_lists, appended, rebound. cbn. rewrite length_app. cbn [length].
      replace (length (lists w) + 1)%nat with (S (length (lists w))) by lia.
      f_equal. f_equal. rewrite <- app_assoc. cbn. f_equal. f_equal.
      apply list_fmap_ext. intros i [k' l'] Hi. cbn.
      assert ((k', l') ∈ rest) as Hin by (by eapply list_elem_of_lookup_2).
      rewrite lookup_app_l; [done|]. apply (Hv k' l'). by right.
    + intros k' l' Hin. cbn. rewrite length_app. cbn.
      assert (l' < length (lists w))%nat by (apply (Hv k' l'); by right). lia.
Qed.

Lemma rebound_fst items n : (rebound items n).*1 = items.*1.
Proof. unfold rebound. apply fst_zip. rewrite length_fmap, length_seq. lia. Qed.

Lemma rebound_lookup items n k :
  NoDup (items.*1) →
  (list_to_map (rebound items n) : gmap string nat) !! k
  = match list_find (λ kl, kl.1 = k) items with
    | Some (i, _) => Some (n + i)%nat
    | None => None
    end.
Proof.
  intros Hnd. destruct (list_find _ items) as [[i [k' l]]|] eqn:Hf.
  - apply list_find_Some in Hf as (Hi & Hk & _). cbn in Hk. subst k'.
    apply elem_of_list_to_map_1; [by rewrite rebound_fst|].
    apply list_elem_of_lookup. exists i. unfold rebound.
    apply lookup_zip_with_Some. exists k, (n + i)%nat. split; [done|]. split.
    + by rewrite list_lookup_fmap, Hi.
    + apply lookup_seq. split; [done|]. by eapply lookup_lt_Some.
  - apply not_elem_of_list_to_map_1. rewrite rebound_fst.
    apply list_find_None in Hf. intros (kl & Hk & Hin)%list_elem_of_fmap.
    rewrite Forall_forall in Hf. by apply (Hf kl).
Qed.

Lemma foldl_insert_lookup (l : list (string * nat)) :
  ∀ (d : gmap string nat) k,
    NoDup (l.*1) →
    foldl (λ d kl, <[kl.1 := kl.2]> d) d l !! k
    = match (list_to_map l : gmap string nat) !! k with
      | Some v => Some v
      | None => d !! k
      end.
Proof.
  induction l as [|[k' v'] l IH]; intros d k Hnd; [done|].
  cbn [foldl]. apply NoDup_cons in Hnd as [Hk' Hnd]. rewrite IH by done.
  cbn [list_to_map foldr fst snd uncurry]. cbn.
  destruct (decide (k = k')) as [->|Hne].
  - rewrite !lookup_insert_eq.
    by rewrite (not_elem_of_list_to_map_1 _ _ Hk').
  - by rewrite !lookup_insert_ne.
Qed.

(** The dict of a [resolve_items] run over all its items is the dict of the
    new references. *)
Lemma resolved_dict (d : gmap string nat) (n : nat) :
  foldl (λ d kl, <[kl.1 := kl.2]> d) d (rebound (map_to_list d) n)
  = list_to_map (rebound (map_to_list d) n).
Proof.
  apply map_eq. intros k.
  rewrite foldl_insert_lookup by (rewrite rebound_fst; apply NoDup_fst_map_to_list).
  destruct (list_to_map _ !! k) eqn:Hk; [done|].
  apply not_elem_of_list_to_map in Hk. rewrite rebound_fst in Hk.
  destruct (d !! k) as [l|] eqn:Hd; [|done].
  exfalso. apply Hk. apply list_elem_of_fmap. exists (k, l). split; [done|].
  by apply elem_of_map_to_list.
Qed.

(** The new references hold the images of what the old ones held. *)
Lemma contents_rebound f (d : gmap string nat) (h : list (list string)) :
  contents (list_to_map (rebound (map_to_list d) (length h)))
    (h ++ appended f (map_to_list d) h)
  = f <$> contents d h.
Proof.
  apply map_eq. intros k. rewrite lookup_fmap, !contents_lookup.
  rewrite rebound_lookup by apply NoDup_fst_map_to_list.
  destruct (list_find _ (map_to_list d)) as [[i [k' l]]|] eqn:Hf.
  - apply list_find_Some in Hf as (Hi & Hk & _). cbn in Hk. subst k'.
    assert (d !! k = Some l) as ->.
    { apply elem_of_map_to_list. by eapply list_elem_of_lookup_2. }
    cbn. f_equal. rewrite lookup_app_r by lia.
    replace (length h + i - length h)%nat with i by lia.
    unfold appended. by rewrite list_lookup_fmap, Hi.
  - destruct (d !! k) as [l|] eqn:Hd; [|done].
    apply list_find_None in Hf. rewrite Forall_forall in Hf.
    exfalso. apply (Hf (k, l)); [|done]. by apply elem_of_map_to_list.
Qed.

Lemma rebound_valid (d : gmap string nat) (h : list (list string)) f k l :
  (list_to_map (rebound (map_to_list d) (length h)) : gmap string nat) !! k = Some l →
  (length h ≤ l < length (h ++ appended f (map_to_list d) h))%nat.
Proof.
  rewrite rebound_lookup by apply NoDup_fst_map_to_list.
  destruct (list_find _ _) as [[i kl]|] eqn:Hf; [|done].
  intros [= <-]. apply list_find_Some in Hf as (Hi & _).
  apply lookup_lt_Some in Hi. rewrite length_app. unfold appended.
  rewrite length_fmap. lia.
Qed.

Lemma write_back_lookup items after (h : list (list string)) (l : nat) :
  (∀ k l', (k, l') ∈ items → l' ≠ l) →
  write_back items after h !! l = h !! l.
Proof.
  induction items as [|[k l'] rest IH]; intros Hne; [done|].
  cbn [write_back foldr]. fold (write_back rest after h).
  assert (write_back rest after h !! l = h !! l) as Hrest.
  { apply IH. intros k0 l0 Hin. apply (Hne k0). by right. }
  destruct (after !! k); [|done].
  rewrite list_lookup_insert_ne; [done|]. apply (Hne k). by left.
Qed.

Lemma write_back_length items after (h : list (list string)) :
  length (write_back items after h) = length h.
Proof.
  induction items as [|[k l] rest IH]; [done|].
  cbn [write_back foldr]. fold (write_back rest after h).
  destruct (after !! k); [|done]. by rewrite length_insert.
Qed.

Lemma resolve_args_spec E a w d :
  argdicts w !! a = Some d →
  valid_refs d (lists w) →
  ∃ d1 w1,
    resolve_args E a w = (Py.Ok tt, w1)
    ∧ argdicts w1 !! a = Some d1
    ∧ valid_refs d1 (lists w1)
    ∧ contents d1 (lists w1) = resolved E w (contents d (lists w))
    ∧ extrasubsdict w1 = extrasubsdict w
    ∧ (∀ a', a' ≠ a → argdicts w1 !! a' = argdicts w !! a').
Proof.
  intros Hd Hv. unfold resolve_args, resolved. run.
  destruct (bool_decide (extrasubsdict w = ∅)); cbn [negb].
  - by exists d, w.
  - rewrite Hd. cbn [default].
    rewrite resolve_items_run
      by (intros k l Hin; apply (Hv k); by apply elem_of_map_to_list).
    eexists _, _. split; [reflexivity|]. cbn.
    split.
    { rewrite list_lookup_alter_eq, Hd. cbn [fmap option_fmap option_map].
      by rewrite resolved_dict. }
    split; [intros k l Hk; by eapply rebound_valid|].
    split; [apply contents_rebound|].
    split; [done|]. intros a' Ha. by rewrite list_lookup_alter_ne.
Qed.

Lemma invoke_spec {R} E a (p : plugin R) w d :
  argdicts w !! a = Some d →
  valid_refs d (lists w) →
  ∃ d1 w',
    invoke E a p w = (fst (p (resolved E w (contents d (lists w)))), w')
    ∧ argdicts w' !! a = Some d1
    ∧ valid_refs d1 (lists w')
    ∧ contents d1 (lists w') = resolved E w (contents d (lists w))
    ∧ extrasubsdict w' = extrasubsdict w
    ∧ (∀ a', a' ≠ a → argdicts w' !! a' = argdicts w !! a').
Proof.
  intros Hd Hv.
  destruct (resolve_args_spec E a w d Hd Hv) as (d1 & w1 & Hr & Hd1 & Hv1 & Hc1 & He1 & Hf1).
  unfold invoke. rewrite (bind_ok _ _ _ _ _ Hr).
  assert (Hclone : clone_args a w1
            = (Py.Ok (list_to_map (rebound (map_to_list d1) (length (lists w1)))),
               set_lists (λ h, h ++ appended (λ v, v) (map_to_list d1) h) w1)).
  { unfold clone_args. run. rewrite Hd1. cbn [default].
    apply clone_items_run. intros k l Hin. apply (Hv1 k). by apply elem_of_map_to_list. }
  rewrite (bind_ok _ _ _ _ _ Hclone). unfold call_plugin. cbn [lists set_lists].
  rewrite contents_rebound, map_fmap_id, Hc1.
  destruct (p (resolved E w (contents d (lists w)))) as [r after].
  exists d1. eexists. split; [reflexivity|]. cbn.
  set (h2 := lists w1 ++ appended (λ v, v) (map_to_list d1) (lists w1)).
  set (a2 := list_to_map (rebound (map_to_list d1) (length (lists w1))) : gmap string nat).
  assert (Hkeep : ∀ l, (l < length (lists w1))%nat →
            write_back (map_to_list a2) after h2 !! l = lists w1 !! l).
  { intros l Hl. rewrite write_back_lookup.
    - unfold h2. by rewrite lookup_app_l.
    - intros k l' Hin%elem_of_map_to_list.
      apply (rebound_valid d1 (lists w1) (λ v, v)) in Hin. lia. }
  split; [exact Hd1|]. split; [|split; [|split; [exact He1 | exact Hf1]]].
  - intros k l Hk. rewrite write_back_length. unfold h2. rewrite length_app.
    specialize (Hv1 k l Hk). lia.
  - rewrite <- Hc1. apply map_eq. intros k. rewrite !contents_lookup.
    destruct (d1 !! k) as [l|] eqn:Hk; [|done]. cbn.
    rewrite Hkeep; [done|]. by eapply Hv1.
Qed.

Lemma doVerify_invoke E (self : Verify.verify) uri resp respdata cb p w :
  Verify.callback self = Some cb →
  verifiers E ("verifiers." +:+ cb) = Some p →
  Verify.doVerify E self uri resp respdata w
  = invoke E (Verify.args self) (p uri resp respdata) w.
Proof.
  intros Hcb Hp. unfold Verify.doVerify, invoke. rewrite Hcb.
  cbv [mbind St_bind mret St_ret from_opt].
  destruct (resolve_args E (Verify.args self) w) as [[[]|e] w1]; [|done].
  by rewrite Hp.
Qed.

Lemma doGenerate_invoke E (self : Generator.generator) cb p w :
  Generator.callback self = Some cb →
  generators E cb = Some p →
  Generator.doGenerate E self w = invoke E (Generator.args self) p w.
Proof.
  intros Hcb Hp. unfold Generator.doGenerate, invoke. rewrite Hcb.
  cbv [mbind St_bind mret St_ret from_opt].
  destruct (resolve_args E (Generator.args self) w) as [[[]|e] w1]; [|done].
  by rewrite Hp.
Qed.

(** C7: [doVerify] and [doGenerate] hand the plug-in a copy of the stored
    argument lists, resolved against the extra substitutions when there are
    any; whatever the plug-in does to the lists it was handed, the stored
    lists afterwards are the resolved ones, and the next invocation hands
    out a copy of those, resolved once more. *)
Theorem plugin_arguments_isolated (E : Env) (w : world) (a : nat)
    (d : gmap string nat) :
  argdicts w !! a = Some d →
  valid_refs d (lists w) →
  let handed := resolved E w (contents d (lists w)) in
  (∀ (self : Verify.verify) cb p uri resp respdata,
      Verify.args self = a →
      Verify.callback self = Some cb →
      verifiers E ("verifiers." +:+ cb) = Some p →
      ∃ d1 w',
        Verify.doVerify E self uri resp respdata w
        = (fst (p uri resp respdata handed), w')
        ∧ argdicts w' !! a = Some d1
        ∧ contents d1 (lists w') = handed
        ∧ ∀ uri2 resp2 respdata2,
            fst (Verify.doVerify E self uri2 resp2 respdata2 w')
            = fst (p uri2 resp2 respdata2 (resolved E w handed)))
  ∧ (∀ (self : Generator.generator) cb p,
      Generator.args self = a →
      Generator.callback self = Some cb →
      generators E cb = Some p →
      ∃ d1 w',
        Generator.doGenerate E self w = (fst (p handed), w')
        ∧ argdicts w' !! a = Some d1
        ∧ contents d1 (lists w') = handed
        ∧ fst (Generator.doGenerate E self w') = fst (p (resolved E w handed))).
Proof.
  intros Hd Hv handed.
  assert (Hsame : ∀ w', extrasubsdict w' = extrasubsdict w →
            ∀ stored, resolved E w' stored = resolved E w stored).
  { intros w' He stored. unfold resolved. by rewrite He. }
  split.
  - intros self cb p uri resp respdata <- Hcb Hp.
    destruct (invoke_spec E (Verify.args self) (p uri resp respdata) w d Hd Hv)
      as (d1 & w' & Hrun & Hd1 & Hv1 & Hc1 & He1 & _).
    exists d1, w'. rewrite (doVerify_invoke E self uri resp respdata cb p w Hcb Hp).
    split; [exact Hrun|]. split; [exact Hd1|]. split; [exact Hc1|].
    intros uri2 resp2 respdata2.
    destruct (invoke_spec E (Verify.args self) (p uri2 resp2 respdata2) w' d1 Hd1 Hv1)
      as (d2 & w2 & Hrun2 & _).
    rewrite (doVerify_invoke E self uri2 resp2 respdata2 cb p w' Hcb Hp), Hrun2.
    cbn [fst]. by rewrite Hc1, (Hsame w' He1).
  - intros self cb p <- Hcb Hp.
    destruct (invoke_spec E (Generator.args self) p w d Hd Hv)
      as (d1 & w' & Hrun & Hd1 & Hv1 & Hc1 & He1 & _).
    exists d1, w'. rewrite (doGenerate_invoke E self cb p w Hcb Hp).
    split; [exact Hrun|]. split; [exact Hd1|]. split; [exact Hc1|].
    destruct (invoke_spec E (Generator.args self) p w' d1 Hd1 Hv1)
      as (d2 & w2 & Hrun2 & _).
    rewrite (doGenerate_invoke E self cb p w' Hcb Hp), Hrun2.
    cbn [fst]. by rewrite Hc1, (Hsame w' He1).
Qed.

(** ** The free-busy verifier *)

Lemma first_known_nil (attendee_values : list string) :
  PostFreeBusy.first_known attendee_values [] = None.
Proof. induction attendee_values as [|a rest IH]; [done|]. cbn. exact IH. Qed.

Lemma scan_without_attendees E cals busy tentative unavailable events :
  Forall (λ text, ∃ parse c fb, parseText E = Some parse ∧ parse text = Parsed c
                                ∧ vfreebusy_components c = [fb]) cals →
  PostFreeBusy.scan E cals [] busy tentative unavailable events = ([], None).
Proof.
  induction 1 as [|text rest (parse & c & fb & Hi & Hp & Hfb) _ IH]; [done|].
  cbn [PostFreeBusy.scan]. by rewrite Hi, Hp, Hfb, first_known_nil.
Qed.

(** C10 (amended): the verifier returns [False] with the status diagnostic
    whenever the status is not 200.  With status 200, a response body that
    parses as XML and no attendee to look for, it returns [(True, "")]
    provided the [events] argument, when it has exactly one value, evaluates
    to an integer and every calendar-data element of the response parses,
    pycalendar being imported, as a calendar with exactly one VFREEBUSY
    component; the periods and the event count are then never compared, and
    the arguments are left as they were. *)
Theorem postFreeBusy_verify (E : Env) (uri : string) (resp : response)
    (respdata : string) (args : gmap string (list string)) :
  (status resp ≠ 200 →
   PostFreeBusy.verify E uri resp respdata args
   = (Py.Ok (false, "        HTTP Status Code Wrong: " +:+ Py.str_of_int (status resp)), args))
  ∧ (∀ cals,
       status resp = 200 →
       PostFreeBusy.get_arg args "attendee" = [] →
       (∀ text, PostFreeBusy.get_arg args "events" = [text] →
                Py.is_ok (py_eval_int E text) = true) →
       parse_xml E respdata = Py.Ok cals →
       Forall (λ text, ∃ parse c fb, parseText E = Some parse ∧ parse text = Parsed c
                                     ∧ vfreebusy_components c = [fb]) cals →
       PostFreeBusy.verify E uri resp respdata args = (Py.Ok (true, ""), args)).
Proof.
  split.
  - intros Hs. unfold PostFreeBusy.verify.
    apply Z.eqb_neq in Hs. by rewrite Hs.
  - intros cals Hs Hu Hev Hx Hc. unfold PostFreeBusy.verify.
    rewrite Hs, Hu, Hx. cbn [Z.eqb Pos.eqb negb].
    assert (Hevents : ∃ events,
              match PostFreeBusy.get_arg args "events" with
              | [text] => n ← py_eval_int E text; Py.Ok (Some n)
              | _ => Py.Ok None
              end = Py.Ok events).
    { destruct (PostFreeBusy.get_arg args "events") as [|text [|]] eqn:He; eauto.
      specialize (Hev text eq_refl).
      destruct (py_eval_int E text) as [n|]; [|done]. by exists (Some n). }
    destruct Hevents as [events ->].
    rewrite scan_without_attendees by done. cbn.
    unfold PostFreeBusy.get_arg in Hu.
    destruct (args !! "attendee") as [users|] eqn:Ha; [|done].
    cbn in Hu. subst users. by rewrite insert_id.
Qed.

(** A response that is not found, a scheduling response without
    calendar data, with pycalendar and without it, and a body with one
    free-busy calendar. *)
Lemma postFreeBusy_verify_witness :
  PostFreeBusy.verify calendar_env "/" {| status := 404; www_authenticate := [] |} "" ∅
  = (Py.Ok (false, "        HTTP Status Code Wrong: 404"), ∅)
  ∧ PostFreeBusy.verify calendar_env "/" ok_response empty_schedule_response
      {[ "busy" := ["20160101T000000Z/20160101T010000Z"] ]}
    = (Py.Ok (true, ""), {[ "busy" := ["20160101T000000Z/20160101T010000Z"] ]})
  ∧ PostFreeBusy.verify bare_env "/" ok_response empty_schedule_response ∅
    = (Py.Ok (true, ""), ∅)
  ∧ PostFreeBusy.verify calendar_env "/" ok_response (schedule_response free_calendar_text) ∅
    = (Py.Ok (true, ""), ∅).
Proof.
  split; [|split; [|split]].
  - refine (proj1 (postFreeBusy_verify calendar_env "/"
                     {| status := 404; www_authenticate := [] |} "" ∅) _).
    discriminate.
  - refine (proj2 (postFreeBusy_verify calendar_env "/" ok_response empty_schedule_response
                     {[ "busy" := ["20160101T000000Z/20160101T010000Z"] ]})
              [] eq_refl eq_refl _ eq_refl (Forall_nil_2 _)).
    intros text Hev. discriminate Hev.
  - refine (proj2 (postFreeBusy_verify bare_env "/" ok_response empty_schedule_response ∅)
              [] eq_refl eq_refl _ eq_refl (Forall_nil_2 _)).
    intros text Hev. discriminate Hev.
  - refine (proj2 (postFreeBusy_verify calendar_env "/" ok_response
                     (schedule_response free_calendar_text) ∅)
              [Some free_calendar_text] eq_refl eq_refl _ eq_refl _).
    + intros text Hev. discriminate Hev.
    + repeat constructor.
      by exists known_calendars, free_calendar,
                {| attendees := [user01]; freebusy := [] |}.
Defined.

(** C10, as stated, fails: with status 200, a body that parses as XML and
    holds one calendar-data element, and no attendee argument, the element
    is parsed all the same.  Its text being no calendar, the verifier
    returns [False]; and where pycalendar is not imported, it raises
    [NameError]. *)
Lemma postFreeBusy_parses_without_attendees :
  status ok_response = 200
  ∧ parse_xml calendar_env (schedule_response "not a calendar")
    = Py.Ok [Some "not a calendar"]
  ∧ PostFreeBusy.get_arg ∅ "attendee" = []
  ∧ PostFreeBusy.verify calendar_env "/" ok_response (schedule_response "not a calendar") ∅
    = (Py.Ok (false, "        HTTP response data is not a calendar"), ∅)
  ∧ PostFreeBusy.verify bare_env "/" ok_response (schedule_response "not a calendar") ∅
    = (Py.Raise Py.NameError, ∅).
Proof. repeat split. Qed.

Lemma plugin_world_valid :
  valid_refs {[ "attendee" := 0%nat; "busy" := 1%nat ]} (lists plugin_world).
Proof.
  intros k l Hk. cbn.
  apply lookup_insert_Some in Hk as [[_ <-]|[_ Hk]]; [lia|].
  apply lookup_singleton_Some in Hk as [_ <-]. lia.
Qed.

Lemma plugin_arguments_isolated_witness :
  fst (Verify.doVerify plugin_env freebusy_verifier "/" ok_response "<xml/>" plugin_world)
  = Py.Ok (false, "        HTTP response data is invalid: Period list sizes do not match.")
  ∧ (∃ d1,
       argdicts (snd (Verify.doVerify plugin_env freebusy_verifier "/" ok_response "<xml/>"
                        plugin_world)) !! 0%nat = Some d1
       ∧ contents d1
           (lists (snd (Verify.doVerify plugin_env freebusy_verifier "/" ok_response
                          "<xml/>" plugin_world)))
         = {[ "attendee" := [user01]; "busy" := ["20160101T000000Z/20160101T010000Z"] ]})
  ∧ lists (snd (Verify.doVerify plugin_env freebusy_verifier "/" ok_response "<xml/>"
                  plugin_world))
    = [ [user01]; ["20160101T000000Z/20160101T010000Z"];
        []; ["20160101T000000Z/20160101T010000Z"] ]
  ∧ fst (Verify.doVerify plugin_env freebusy_verifier "/" ok_response "<xml/>"
           (snd (Verify.doVerify plugin_env freebusy_verifier "/" ok_response "<xml/>"
                   plugin_world)))
    = Py.Ok (false, "        HTTP response data is invalid: Period list sizes do not match.").
Proof.
  destruct (proj1 (plugin_arguments_isolated plugin_env plugin_world 0
                     {[ "attendee" := 0%nat; "busy" := 1%nat ]} eq_refl plugin_world_valid)
              freebusy_verifier "postFreeBusy" (PostFreeBusy.verify freebusy_env)
              "/" ok_response "<xml/>" eq_refl eq_refl eq_refl)
    as (d1 & w' & Hrun & Hd1 & Hc1 & Hnext).
  rewrite Hrun. cbn [fst snd].
  split; [vm_compute; reflexivity|]. split; [|split].
  - exists d1. split; [exact Hd1|]. rewrite Hc1. vm_compute. reflexivity.
  - apply (f_equal snd) in Hrun. cbn [snd] in Hrun. rewrite <- Hrun.
    vm_compute. reflexivity.
  - rewrite Hnext. vm_compute. reflexivity.
Defined.

(** ** Feature gating on concrete sets *)

Lemma feature_gate_sets_witness :
  (Request.missingFeatures (gated_request {["ctag"]} ∅) (set_features {["etag"]} empty_world)
   = (Py.Ok {["ctag"]}, set_features {["etag"]} empty_world)
   ∧ Testsuite.missingFeatures (gated_suite {["ctag"]} ∅) (set_features {["etag"]} empty_world)
     = (Py.Ok {["ctag"]}, set_features {["etag"]} empty_world))
  ∧ (Request.excludedFeatures (gated_request ∅ {["ctag"]})
       (set_features {["ctag"; "etag"]} empty_world)
     = (Py.Ok {["ctag"]}, set_features {["ctag"; "etag"]} empty_world)
     ∧ Testsuite.excludedFeatures (gated_suite ∅ {["ctag"]})
         (set_features {["ctag"; "etag"]} empty_world)
       = (Py.Ok {["ctag"]}, set_features {["ctag"; "etag"]} empty_world)).
Proof.
  destruct feature_gate_sets as (_ & _ & Hmissing & Hexcluded).
  split.
  - exact (Hmissing (gated_request {["ctag"]} ∅) (gated_suite {["ctag"]} ∅)
             (set_features {["etag"]} empty_world) eq_refl eq_refl eq_refl).
  - exact (Hexcluded (gated_request ∅ {["ctag"]}) (gated_suite ∅ {["ctag"]})
             (set_features {["ctag"; "etag"]} empty_world) eq_refl eq_refl eq_refl).
Defined.

(** ** Further properties of the digest code *)

(** A name outside the table [algorithms] makes both digest functions raise
    [KeyError] at once. *)
Lemma unsupported_algorithm_fails (alg : string) :
  algorithms alg = None →
  (∀ user realm password nonce cnonce,
      calcHA1 alg user realm password nonce cnonce None = Py.Raise Py.KeyError)
  ∧ (∀ HA1 nonce nc cnonce qop method uri hentity,
      calcResponse HA1 alg nonce nc cnonce qop method uri hentity = Py.Raise Py.KeyError).
Proof.
  intros Halg. split.
  - intros. unfold calcHA1, new_hash. rewrite Halg. reflexivity.
  - intros. unfold calcResponse, new_hash. rewrite Halg. reflexivity.
Qed.

Lemma unsupported_algorithm_fails_witness :
  calcHA1 "MD5" "Mufasa" (Some "testrealm@host.com") "Circle Of Life"
    (Some "dcd98b7102dd2f0e8b11d0f600bfb0c093") None None
  = Py.Raise Py.KeyError.
Proof.
  exact (proj1 (unsupported_algorithm_fails "MD5" eq_refl) "Mufasa"
           (Some "testrealm@host.com") "Circle Of Life"
           (Some "dcd98b7102dd2f0e8b11d0f600bfb0c093") None).
Defined.

Lemma harvest_no_digest E user items w :
  Forall (λ item, Py.startswith "digest " (Py.lower item) = false) items →
  Request.harvest E user items w = (Py.Ok None, w).
Proof.
  induction 1 as [|item rest Hitem _ IH]; [done|].
  cbn [Request.harvest]. by rewrite Hitem.
Qed.

(** Without a cached challenge, a probe answered with a status other than
    401, or with no [Digest] challenge, leaves the cache and the nonce
    counts as they were and gives the empty Authorization value. *)
Lemma no_challenge_no_authorization E self si w uri w1 resp :
  digestCache w !! Request.or_default (Request.user self) (si_user si) = None →
  Request.getURI E self w = (Py.Ok uri, w1) →
  server E (length (http_log w1)) "OPTIONS" (quote_uri E uri) = Some resp →
  status resp ≠ 401
  ∨ Forall (λ item, Py.startswith "digest " (Py.lower item) = false) (www_authenticate resp) →
  Request.gethttpdigestauth E self si w
  = (Py.Ok "", set_http_log (λ l, l ++ [("OPTIONS", quote_uri E uri)]) w1)
  ∧ digestCache (snd (Request.gethttpdigestauth E self si w)) = digestCache w
  ∧ nc (snd (Request.gethttpdigestauth E self si w)) = nc w.
Proof.
  intros Hnone Huri Hsrv Hresp.
  pose proof (getURI_keeps digestCache E self (λ _ _, eq_refl) w) as Hc.
  pose proof (getURI_keeps nc E self (λ _ _, eq_refl) w) as Hn.
  rewrite Huri in Hc, Hn. cbn [snd] in Hc, Hn.
  assert (Hrun : Request.gethttpdigestauth E self si w
                 = (Py.Ok "", set_http_log (λ l, l ++ [("OPTIONS", quote_uri E uri)]) w1)).
  { unfold Request.gethttpdigestauth, Request.get_details.
    cbv [mbind St_bind mret St_ret gets]. rewrite Hnone.
    unfold Request.probe. cbv [mbind St_bind mret St_ret]. rewrite Huri.
    unfold http_request. rewrite Hsrv.
    destruct Hresp as [Hs | Hitems].
    - apply Z.eqb_neq in Hs. rewrite Hs. reflexivity.
    - destruct (status resp =? 401); [|reflexivity].
      by rewrite harvest_no_digest. }
  rewrite Hrun. cbn. by rewrite Hc, Hn.
Qed.

Lemma no_challenge_no_authorization_witness :
  Request.gethttpdigestauth plain_env (demo_request "GET") (demo_si "Mufasa") empty_world
  = (Py.Ok "", set_http_log (λ l, l ++ [("OPTIONS", "/dir/index.html")]) empty_world).
Proof.
  pose proof (no_challenge_no_authorization plain_env (demo_request "GET")
                (demo_si "Mufasa") empty_world "/dir/index.html" empty_world
                {| status := 200; www_authenticate := [] |}) as H.
  assert (H1 : digestCache empty_world
               !! Request.or_default (Request.user (demo_request "GET"))
                    (si_user (demo_si "Mufasa")) = None) by reflexivity.
  assert (H2 : Request.getURI plain_env (demo_request "GET") empty_world
               = (Py.Ok "/dir/index.html", empty_world)) by (vm_compute; reflexivity).
  assert (H3 : server plain_env (length (http_log empty_world)) "OPTIONS"
                 (quote_uri plain_env "/dir/index.html")
               = Some {| status := 200; www_authenticate := [] |}) by reflexivity.
  assert (H4 : status {| status := 200; www_authenticate := [] |} ≠ 401) by discriminate.
  specialize (H H1 H2 H3 (or_introl H4)).
  destruct H as [H _].
  exact H.
Defined.
